(** * pytech: the order-trigger state machine and the portfolio event loop

    A shallow embedding of [pytech/order.py] and
    [pytech/fin/portfolio/portfolio.py].

    Conventions of the embedding:
    - share quantities are Python ints, modelled as [Z];
    - prices and cash amounts are modelled as exact rationals [Q]; the
      comparisons of the source are the boolean comparisons of [Q].  The
      source computes with binary64 floats, so a theorem about a sum or a
      product of amounts is a theorem of exact arithmetic; where rounding
      decides the result, as in the liquidity check, the code is modelled
      a second time over the primitive floats ([portfolio_float]);
    - a method that mutates [self] becomes a function from the state before
      the call to an [outcome]: the value returned (or the exception raised)
      together with the state left behind.  Python does not roll a mutation
      back when an exception propagates, so [Raise] carries a state too;
    - dictionaries are [gmap]s keyed by strings;
    - [datetime.now()] and the collaborators that are not part of these two
      modules (price oracle, data handler, blotter, owned assets) are
      arguments. *)

From Stdlib Require Import ZArith QArith Bool List Lia Lqa.
From Stdlib Require Floats.
From stdpp Require Import base option strings list gmap fin_maps.

Set Default Proof Using "Type".

(** ** Python exceptions and outcomes *)

(** Modelled from the spec: the kinds of event of [pytech.utils.enums]. *)
Inductive EventType := EventType_MARKET | EventType_SIGNAL | EventType_FILL.

#[global] Instance EventType_eq_dec : EqDecision EventType.
Proof. solve_decision. Defined.

(** What [InvalidEventTypeError] is raised with: a member of [EventType],
    or the enumeration class itself, which is what [type(member)] is. *)
Inductive EventTypeArg := Member (e : EventType) | EnumClass.

Inductive PyExc :=
| TypeError
| KeyError (msg : string)
| ZeroDivisionError
| StopIteration
| InvalidEventTypeError (expected : EventTypeArg) (event_type : EventTypeArg)
| InsufficientFundsError (ticker : string).

Inductive outcome (S A : Type) :=
| Return (a : A) (s : S)
| Raise (e : PyExc) (s : S).
Arguments Return {S A} a s.
Arguments Raise {S A} e s.

Definition state_of {S A} (r : outcome S A) : S :=
  match r with Return _ s => s | Raise _ s => s end.

Definition raised {S A} (r : outcome S A) : option PyExc :=
  match r with Return _ _ => None | Raise e _ => Some e end.

(** A state-and-exception monad for method bodies. *)
Definition M (S A : Type) : Type := S -> outcome S A.

Definition ret {S A} (a : A) : M S A := fun s => Return a s.
Definition bind {S A B} (m : M S A) (k : A -> M S B) : M S B :=
  fun s => match m s with
           | Return a s' => k a s'
           | Raise e s' => Raise e s'
           end.
Definition get {S} : M S S := fun s => Return s s.
Definition modify {S} (f : S -> S) : M S unit := fun s => Return tt (f s).
Definition throw {S A} (e : PyExc) : M S A := fun s => Raise e s.

Declare Scope py_scope.
Delimit Scope py_scope with py.
Notation "'let*' x ':=' m 'in' k" := (bind m (fun x => k))
  (at level 10, x name, m at level 100, k at level 200, only parsing)
  : py_scope.
Notation "m ;;; k" := (bind m (fun _ => k))
  (at level 100, k at level 200, right associativity, only parsing)
  : py_scope.

(** Python's [a >= b] and [a <= b] on a number and an attribute that may
    hold [None]: comparing with [None] raises [TypeError]. *)
Definition py_ge {S} (a : Q) (b : option Q) : M S bool :=
  match b with
  | Some v => ret (Qle_bool v a)
  | None => throw TypeError
  end.

Definition py_le {S} (a : Q) (b : option Q) : M S bool :=
  match b with
  | Some v => ret (Qle_bool a v)
  | None => throw TypeError
  end.

(** ** [pytech/order.py] *)

Module order.

(** Modelled from the spec: the enumerations of [pytech.enums], which the
    order module imports; the spec names the members. *)
Inductive OrderStatus := OPEN | HELD | FILLED | CANCELLED | REJECTED.
Inductive OrderType := MARKET | LIMIT | STOP | STOP_LIMIT.
Inductive OrderSubType := DAY | GOOD_TIL_CANCELED.
Inductive TradeAction := BUY | SELL.

#[global] Instance OrderStatus_eq_dec : EqDecision OrderStatus.
Proof. solve_decision. Defined.
#[global] Instance OrderType_eq_dec : EqDecision OrderType.
Proof. solve_decision. Defined.
#[global] Instance OrderSubType_eq_dec : EqDecision OrderSubType.
Proof. solve_decision. Defined.
#[global] Instance TradeAction_eq_dec : EqDecision TradeAction.
Proof. solve_decision. Defined.

(** The attributes of an [Order] instance.  Timestamps are [Z]. *)
Record Order := mkOrder {
  action : TradeAction;
  order_type : OrderType;
  order_subtype : OrderSubType;
  max_days_open : option Z;
  qty : Z;
  commission : Q;
  stop : option Q;
  limit : option Q;
  stop_reached : bool;
  limit_reached : bool;
  filled : Z;
  _status : OrderStatus;
  reason : option string;
  created : Z;
  last_updated : Z;
  close_date : option Z
}.

Definition set_stop (v : option Q) (o : Order) : Order :=
  mkOrder (action o) (order_type o) (order_subtype o) (max_days_open o)
    (qty o) (commission o) v (limit o) (stop_reached o) (limit_reached o)
    (filled o) (_status o) (reason o) (created o) (last_updated o)
    (close_date o).

Definition set_order_type (v : OrderType) (o : Order) : Order :=
  mkOrder (action o) v (order_subtype o) (max_days_open o)
    (qty o) (commission o) (stop o) (limit o) (stop_reached o)
    (limit_reached o) (filled o) (_status o) (reason o) (created o)
    (last_updated o) (close_date o).

Definition set_stop_reached (v : bool) (o : Order) : Order :=
  mkOrder (action o) (order_type o) (order_subtype o) (max_days_open o)
    (qty o) (commission o) (stop o) (limit o) v (limit_reached o)
    (filled o) (_status o) (reason o) (created o) (last_updated o)
    (close_date o).

Definition set_limit_reached (v : bool) (o : Order) : Order :=
  mkOrder (action o) (order_type o) (order_subtype o) (max_days_open o)
    (qty o) (commission o) (stop o) (limit o) (stop_reached o) v
    (filled o) (_status o) (reason o) (created o) (last_updated o)
    (close_date o).

Definition set_last_updated (v : Z) (o : Order) : Order :=
  mkOrder (action o) (order_type o) (order_subtype o) (max_days_open o)
    (qty o) (commission o) (stop o) (limit o) (stop_reached o)
    (limit_reached o) (filled o) (_status o) (reason o) (created o) v
    (close_date o).

Definition set__status (v : OrderStatus) (o : Order) : Order :=
  mkOrder (action o) (order_type o) (order_subtype o) (max_days_open o)
    (qty o) (commission o) (stop o) (limit o) (stop_reached o)
    (limit_reached o) (filled o) v (reason o) (created o) (last_updated o)
    (close_date o).

Definition set_reason (v : option string) (o : Order) : Order :=
  mkOrder (action o) (order_type o) (order_subtype o) (max_days_open o)
    (qty o) (commission o) (stop o) (limit o) (stop_reached o)
    (limit_reached o) (filled o) (_status o) v (created o) (last_updated o)
    (close_date o).

(** [Order.__init__].  The [issubclass]/[isinstance] checks on [asset] and
    [portfolio] and the [check_if_valid] calls reject ill-typed arguments;
    here the argument types already exclude them. *)
Definition __init__ (action : TradeAction) (order_type : OrderType)
    (stop limit : option Q) (qty filled : Z) (commission : Q) (created : Z)
    (order_subtype : OrderSubType) (max_days_open : option Z) : Order :=
  {| action := action;
     order_type := order_type;
     order_subtype := order_subtype;
     max_days_open :=
       match order_subtype, max_days_open with
       | GOOD_TIL_CANCELED, None => Some 90%Z
       | _, _ => max_days_open
       end;
     qty :=
       match action with
       | SELL => if (0 <? qty)%Z then (qty * -1)%Z else qty
       | BUY => qty
       end;
     commission := commission;
     stop := stop;
     limit := limit;
     stop_reached := false;
     limit_reached := false;
     filled := filled;
     _status := OPEN;
     reason := None;
     created := created;
     last_updated := created;
     close_date := None |}.

(** [Order.open_amount] *)
Definition open_amount (self : Order) : Z := (qty self - filled self)%Z.

(** [Order.status], the getter: [not self.open_amount] is [open_amount == 0]
    and [self.filled] is truthy when non-zero. *)
Definition status (self : Order) : OrderStatus :=
  if (open_amount self =? 0)%Z then FILLED
  else if bool_decide (_status self = HELD) && negb (filled self =? 0)%Z
       then OPEN
       else _status self.

(** [Order.status], the setter: [check_if_valid] returns a valid member as
    it is. *)
Definition status_setter (v : OrderStatus) (self : Order) : Order :=
  set__status v self.

(** Python's [x is not None]. *)
Definition is_not_None {A} (x : option A) : bool :=
  match x with Some _ => true | None => false end.

(** [Order.triggered] *)
Definition triggered (self : Order) : bool :=
  if is_not_None (stop self) && negb (stop_reached self) then false
  else if is_not_None (limit self) && negb (limit_reached self) then false
  else true.

(** [Order.open] *)
Definition open (self : Order) : bool :=
  bool_decide (status self = OPEN) || bool_decide (status self = HELD).

Definition cancel (r : string) (self : Order) : Order :=
  set_reason (Some r) (status_setter CANCELLED self).

Definition reject (r : string) (self : Order) : Order :=
  set_reason (Some r) (status_setter REJECTED self).

Definition hold (r : string) (self : Order) : Order :=
  set_reason (Some r) (status_setter HELD self).

Local Open Scope py_scope.

(** The [if]/[elif] chain of [check_order_triggers] on (order type, action),
    entered with the quote [current_price] of the price oracle. *)
Definition trigger_rule (current_price : Q) (now : Z) : M Order unit :=
  let* self := get in
  match order_type self, action self with
  | STOP_LIMIT, BUY =>
      let* b := py_ge current_price (stop self) in
      if b then
        modify (set_stop_reached true) ;;;
        modify (set_last_updated now) ;;;
        let* b' := py_ge current_price (limit self) in
        if b' then modify (set_limit_reached true) else ret tt
      else ret tt
  | STOP_LIMIT, SELL =>
      let* b := py_le current_price (stop self) in
      if b then
        modify (set_stop_reached true) ;;;
        modify (set_last_updated now) ;;;
        let* b' := py_ge current_price (limit self) in
        if b' then modify (set_limit_reached true) else ret tt
      else ret tt
  | STOP, BUY =>
      let* b := py_ge current_price (stop self) in
      if b then
        modify (set_stop_reached true) ;;; modify (set_last_updated now)
      else ret tt
  | STOP, SELL =>
      let* b := py_le current_price (stop self) in
      if b then
        modify (set_stop_reached true) ;;; modify (set_last_updated now)
      else ret tt
  | LIMIT, BUY =>
      let* b := py_ge current_price (limit self) in
      if b then
        modify (set_limit_reached true) ;;; modify (set_last_updated now)
      else ret tt
  | LIMIT, SELL =>
      let* b := py_le current_price (limit self) in
      if b then
        modify (set_limit_reached true) ;;; modify (set_last_updated now)
      else ret tt
  | MARKET, _ => ret tt
  end.

(** The closing [if] of [check_order_triggers]: a STOP_LIMIT order whose
    stop was reached becomes a LIMIT order. *)
Definition convert_stop_limit : M Order unit :=
  let* self := get in
  if stop_reached self && bool_decide (order_type self = STOP_LIMIT) then
    modify (set_stop None) ;;; modify (set_order_type LIMIT)
  else ret tt.

(** [Order.check_order_triggers].  The result is Python's return value:
    [Some true] for [return True], [None] for a bare [return] and for
    falling off the end. *)
Definition check_order_triggers (current_price : Q) (now : Z)
  : M Order (option bool) :=
  let* self := get in
  if bool_decide (order_type self = MARKET) then ret (Some true)
  else if triggered self then ret None
  else
    trigger_rule current_price now ;;;
    convert_stop_limit ;;;
    ret None.

(** The state an order is left in by one tick, whether the call returned
    or raised, and the number of ticks of a run at which the order went from
    STOP_LIMIT to LIMIT. *)
Definition tick (self : Order) (t : Q * Z) : Order :=
  state_of (check_order_triggers (fst t) (snd t) self).

Definition converted (before after : Order) : bool :=
  bool_decide (order_type before = STOP_LIMIT)
  && bool_decide (order_type after = LIMIT).

Fixpoint conversions (self : Order) (ticks : list (Q * Z)) : nat :=
  match ticks with
  | [] => 0%nat
  | t :: ts =>
      let self' := tick self t in
      ((if converted self self' then 1 else 0) + conversions self' ts)%nat
  end.

(** The condition tested by the branch of the chain that applies to the
    order; [None] where the comparison raises. *)
Definition trigger_condition (self : Order) (current_price : Q)
  : option bool :=
  match order_type self, action self with
  | STOP_LIMIT, BUY | STOP, BUY =>
      (fun s => Qle_bool s current_price) <$> stop self
  | STOP_LIMIT, SELL | STOP, SELL =>
      (fun s => Qle_bool current_price s) <$> stop self
  | LIMIT, BUY => (fun l => Qle_bool l current_price) <$> limit self
  | LIMIT, SELL => (fun l => Qle_bool current_price l) <$> limit self
  | MARKET, _ => Some false
  end.

(** The orders that the operations of this module produce: built by the
    constructor, then ticked, cancelled, rejected, held, given a status, or
    filled further (the blotter increments [filled]). *)
Definition set_filled (v : Z) (o : Order) : Order :=
  mkOrder (action o) (order_type o) (order_subtype o) (max_days_open o)
    (qty o) (commission o) (stop o) (limit o) (stop_reached o)
    (limit_reached o) v (_status o) (reason o) (created o) (last_updated o)
    (close_date o).

Inductive reachable : Order -> Prop :=
| reach_init a ot st li q f c cr sub mdo :
    reachable (__init__ a ot st li q f c cr sub mdo)
| reach_tick o t : reachable o -> reachable (tick o t)
| reach_cancel o r : reachable o -> reachable (cancel r o)
| reach_reject o r : reachable o -> reachable (reject r o)
| reach_hold o r : reachable o -> reachable (hold r o)
| reach_status o v : reachable o -> reachable (status_setter v o)
| reach_fill o v : reachable o -> reachable (set_filled v o).

End order.

(** ** [pytech/fin/portfolio/portfolio.py] *)

Module portfolio.

(** A value stored in a holdings row: a number, or the timestamp under the
    key [datetime] of the first row. *)
Inductive pyval := PyNum (q : Q) | PyDatetime (t : Z).

Inductive Position := LONG | SHORT.
Inductive LogLevel := DEBUG | INFO | WARNING.

(** Modelled from the spec: the owned position of
    [pytech.fin.asset.owned_asset], with the attributes this module reads
    (shares owned, mark-to-market value) and the method that records the
    mark value at a timestamp, which leaves the shares alone. *)
Record OwnedAsset := mkOwnedAsset {
  asset_ticker : string;
  shares_owned : Z;
  asset_position : Position;
  average_share_price : Q;
  total_position_value : Q;
  latest_price_time : Z
}.

Definition update_total_position_value (latest_price : Q) (price_date : Z)
    (a : OwnedAsset) : OwnedAsset :=
  mkOwnedAsset (asset_ticker a) (shares_owned a) (asset_position a)
    (average_share_price a) (inject_Z (shares_owned a) * latest_price)%Q
    price_date.

(** Modelled from the spec: the trade record of [pytech.trading.trade];
    [trade_cost] holds what the method [trade_cost()] returns. *)
Record Trade := mkTrade {
  trade_ticker : string;
  trade_action : order.TradeAction;
  trade_qty : Z;
  avg_price_per_share : Q;
  trade_commission : Q;
  trade_cost : Q
}.

(** The events of the queue.  [update_fill] reads the kind through the
    attribute [type], the other handlers through [event_type]; both are
    the kind of the event here. *)
Inductive Event :=
| MarketEvent
| SignalEvent (ticker : string) (dt : Z) (signal_type : string)
| FillEvent (order_id : Z) (price : Q) (dt : Z) (available_volume : Z).

Definition event_type (event : Event) : EventType :=
  match event with
  | MarketEvent => EventType_MARKET
  | SignalEvent _ _ _ => EventType_SIGNAL
  | FillEvent _ _ _ _ => EventType_FILL
  end.

(** The data handler [self.bars]: the tracked tickers and the latest bar. *)
Record DataHandler := mkDataHandler {
  tickers : list string;
  get_latest_bar_dt : string -> Z;
  latest_bar_value : string -> string -> Q
}.

(** The name of the adjusted-close column, [utils.ADJ_CLOSE_COL]. *)
Definition ADJ_CLOSE_COL : string := "adj_close".
Definition POSITION_COLLECTION : string := "portfolio".
Definition TICK_COLLECTION : string := "portfolio_tick".

(** The collaborators whose code lives in other modules: the blotter with
    its orders, the trade bookkeeping of an owned asset, and the signal
    handlers.  [blotter_getitem] is [None] where the lookup raises
    [KeyError]. *)
Class Collaborators := {
  Blotter : Type;
  AnyOrder : Type;
  Handler : Type;
  order_ticker : AnyOrder -> string;
  blotter_set_current_dt : Z -> Blotter -> Blotter;
  blotter_check_order_triggers : Blotter -> Blotter * list AnyOrder;
  blotter_getitem : Blotter -> Z -> option AnyOrder;
  blotter_make_trade : AnyOrder -> Q -> Z -> Z -> Blotter -> Blotter * Trade;
  owned_asset_make_trade : Z -> Q -> OwnedAsset -> option OwnedAsset;
  owned_asset_from_trade : Trade -> Position -> OwnedAsset
}.

Definition Qltb (x y : Q) : bool := negb (Qle_bool y x).

Section Portfolio.
Context `{Collaborators}.

(** One table written by [update_timeindex]: its (timestamp, ticker) index
    and the row it was built from. *)
Definition DataFrame : Type := list (Z * string) * gmap string pyval.

Record Portfolio := mkPortfolio {
  bars : DataHandler;
  blotter : Blotter;
  start_date : Z;
  _initial_capital : Q;
  cash : Q;
  ticker_list : list string;
  owned_assets : gmap string OwnedAsset;
  all_holdings_mv : list (gmap string pyval);
  all_positions_qty : list (gmap string pyval);
  total_commission : Q;
  positions_df : list DataFrame;
  raise_on_warnings : bool;
  signal_handlers : list Handler;
  (* what was passed to [self.logger] and to [self.lib.write_snapshot] *)
  log : list (LogLevel * string);
  lib : list (string * list DataFrame * Z)
}.

Definition set_blotter (v : Blotter) (p : Portfolio) : Portfolio :=
  mkPortfolio (bars p) v (start_date p) (_initial_capital p) (cash p)
    (ticker_list p) (owned_assets p) (all_holdings_mv p)
    (all_positions_qty p) (total_commission p) (positions_df p)
    (raise_on_warnings p) (signal_handlers p) (log p) (lib p).

Definition set_cash (v : Q) (p : Portfolio) : Portfolio :=
  mkPortfolio (bars p) (blotter p) (start_date p) (_initial_capital p) v
    (ticker_list p) (owned_assets p) (all_holdings_mv p)
    (all_positions_qty p) (total_commission p) (positions_df p)
    (raise_on_warnings p) (signal_handlers p) (log p) (lib p).

Definition set_owned_assets (v : gmap string OwnedAsset) (p : Portfolio)
  : Portfolio :=
  mkPortfolio (bars p) (blotter p) (start_date p) (_initial_capital p)
    (cash p) (ticker_list p) v (all_holdings_mv p)
    (all_positions_qty p) (total_commission p) (positions_df p)
    (raise_on_warnings p) (signal_handlers p) (log p) (lib p).

Definition set_all_holdings_mv (v : list (gmap string pyval))
    (p : Portfolio) : Portfolio :=
  mkPortfolio (bars p) (blotter p) (start_date p) (_initial_capital p)
    (cash p) (ticker_list p) (owned_assets p) v
    (all_positions_qty p) (total_commission p) (positions_df p)
    (raise_on_warnings p) (signal_handlers p) (log p) (lib p).

Definition set_total_commission (v : Q) (p : Portfolio) : Portfolio :=
  mkPortfolio (bars p) (blotter p) (start_date p) (_initial_capital p)
    (cash p) (ticker_list p) (owned_assets p) (all_holdings_mv p)
    (all_positions_qty p) v (positions_df p)
    (raise_on_warnings p) (signal_handlers p) (log p) (lib p).

Definition set_positions_df (v : list DataFrame) (p : Portfolio)
  : Portfolio :=
  mkPortfolio (bars p) (blotter p) (start_date p) (_initial_capital p)
    (cash p) (ticker_list p) (owned_assets p) (all_holdings_mv p)
    (all_positions_qty p) (total_commission p) v
    (raise_on_warnings p) (signal_handlers p) (log p) (lib p).

Definition set_log (v : list (LogLevel * string)) (p : Portfolio)
  : Portfolio :=
  mkPortfolio (bars p) (blotter p) (start_date p) (_initial_capital p)
    (cash p) (ticker_list p) (owned_assets p) (all_holdings_mv p)
    (all_positions_qty p) (total_commission p) (positions_df p)
    (raise_on_warnings p) (signal_handlers p) v (lib p).

Definition set_lib (v : list (string * list DataFrame * Z)) (p : Portfolio)
  : Portfolio :=
  mkPortfolio (bars p) (blotter p) (start_date p) (_initial_capital p)
    (cash p) (ticker_list p) (owned_assets p) (all_holdings_mv p)
    (all_positions_qty p) (total_commission p) (positions_df p)
    (raise_on_warnings p) (signal_handlers p) (log p) v.

Local Open Scope py_scope.

Definition logger (level : LogLevel) (msg : string) : M Portfolio unit :=
  modify (fun p => set_log (log p ++ [(level, msg)]) p).

Definition write_snapshot (collection : string) (df : list DataFrame)
    (dt : Z) : M Portfolio unit :=
  modify (fun p => set_lib (lib p ++ [(collection, df, dt)]) p).

(** [{k: v for k, v in [(ticker, v0) for ticker in ticker_list]}] *)
Definition dict_of_tickers (v0 : pyval) (l : list string)
  : gmap string pyval :=
  foldl (fun d ticker => <[ticker := v0]> d) ∅ l.

(** [Portfolio._get_temp_dict] *)
Definition _get_temp_dict (self : Portfolio) : gmap string pyval :=
  dict_of_tickers (PyNum 0) (ticker_list self).

(** [Portfolio._construct_all_positions] *)
Definition _construct_all_positions (tl : list string) (start : Z)
  : list (gmap string pyval) :=
  [ <["datetime" := PyDatetime start]> (dict_of_tickers (PyNum 0) tl) ].

(** [Portfolio._construct_all_holdings] *)
Definition _construct_all_holdings (tl : list string) (start : Z)
    (initial_capital : Q) : list (gmap string pyval) :=
  [ <["total" := PyNum initial_capital]>
      (<["commission" := PyNum 0]>
         (<["cash" := PyNum initial_capital]>
            (<["datetime" := PyDatetime start]>
               (dict_of_tickers (PyNum 0) tl)))) ].

(** [Portfolio.__init__] *)
Definition __init__ (data_handler : DataHandler) (start : Z) (b : Blotter)
    (initial_capital : Q) (raise_on_warnings : bool) : Portfolio :=
  {| bars := data_handler;
     blotter := b;
     start_date := start;
     _initial_capital := initial_capital;
     cash := initial_capital;
     ticker_list := tickers data_handler;
     owned_assets := ∅;
     all_holdings_mv :=
       _construct_all_holdings (tickers data_handler) start initial_capital;
     all_positions_qty :=
       _construct_all_positions (tickers data_handler) start;
     total_commission := 0;
     positions_df := [];
     raise_on_warnings := raise_on_warnings;
     signal_handlers := [];
     log := [];
     lib := [] |}.

(** [Portfolio.total_asset_mv]: the loop over [owned_assets.values()]. *)
Definition total_asset_mv (self : Portfolio) : Q :=
  foldl (fun mv asset => (mv + total_position_value asset)%Q) 0%Q
    (snd <$> map_to_list (owned_assets self)).

(** [Portfolio.total_value] *)
Definition total_value (self : Portfolio) : Q :=
  (total_asset_mv self + cash self)%Q.

(** [Portfolio.check_liquidity], with the product and the difference taken
    exactly; [portfolio_float.check_liquidity] is the same method with the
    rounding of the floats. *)
Definition check_liquidity (avg_price_per_share : Q) (qty : Z)
    (self : Portfolio) : bool :=
  if (qty <? 0)%Z then true
  else
    let cost := (avg_price_per_share * inject_Z qty)%Q in
    let post_trade_cash := (cash self - cost)%Q in
    Qltb 0 post_trade_cash.

(** [Portfolio.get_owned_asset_mv] *)
Definition get_owned_asset_mv (ticker : string) : M Portfolio Q :=
  let* self := get in
  match owned_assets self !! ticker with
  | Some asset => ret (total_position_value asset)
  | None =>
      throw (KeyError ("Ticker: " +:+ ticker +:+ " is not currently owned."))
  end.

(** Python's [a / b] on numbers. *)
Definition py_div {S} (a b : Q) : M S Q :=
  if Qeq_bool b 0 then throw ZeroDivisionError else ret (a / b)%Q.

(** The loop of [current_weights] over [owned_assets.items()]. *)
Fixpoint weights_loop (total_mv : Q) (items : list (string * OwnedAsset))
    (weights : gmap string Q) : M Portfolio (gmap string Q) :=
  match items with
  | [] => ret weights
  | (ticker, asset) :: rest =>
      let* w := py_div (total_position_value asset) total_mv in
      weights_loop total_mv rest (<[ticker := w]> weights)
  end.

(** [Portfolio.current_weights] *)
Definition current_weights (include_cash : bool)
  : M Portfolio (gmap string Q) :=
  let* self := get in
  if include_cash then
    let total_mv := total_value self in
    let* w := py_div (cash self) total_mv in
    weights_loop total_mv (map_to_list (owned_assets self))
      (<["cash" := w]> ∅)
  else
    let total_mv := total_asset_mv self in
    weights_loop total_mv (map_to_list (owned_assets self)) ∅.

(** [Portfolio.get_asset_weight]: only [KeyError] is caught. *)
Definition get_asset_weight (ticker : string) (include_cash : bool)
  : M Portfolio Q :=
  fun self =>
    match current_weights include_cash self with
    | Return weights s =>
        match weights !! ticker with
        | Some w => Return w s
        | None => Return 0%Q s
        end
    | Raise (KeyError _) s => Return 0%Q s
    | Raise e s => Raise e s
    end.

(** [dh[key] += v] *)
Definition dict_iadd (key : string) (v : Q) (dh : gmap string pyval)
  : M Portfolio (gmap string pyval) :=
  match dh !! key with
  | Some (PyNum x) => ret (<[key := PyNum (x + v)%Q]> dh)
  | Some (PyDatetime _) => throw TypeError
  | None => throw (KeyError key)
  end.

(** The first loop of [update_timeindex], over the tracked tickers. *)
Definition positions_loop (self : Portfolio) (dh : gmap string pyval)
  : gmap string pyval :=
  foldl (fun dh ticker =>
           match owned_assets self !! ticker with
           | Some asset => <[ticker := PyNum (inject_Z (shares_owned asset))]> dh
           | None => <[ticker := PyNum 0]> dh
           end) dh (ticker_list self).

(** The second loop of [update_timeindex]; [dh] and [index] are its locals. *)
Fixpoint holdings_loop (latest_dt : Z) (l : list string)
    (dh : gmap string pyval) (index : list (Z * string))
  : M Portfolio (gmap string pyval * list (Z * string)) :=
  match l with
  | [] => ret (dh, index)
  | ticker :: rest =>
      let* self := get in
      let* market_value :=
        match owned_assets self !! ticker with
        | None =>
            logger DEBUG
              (ticker +:+ " is not currently owned, "
                 +:+ "market value will be set to 0.") ;;;
            ret 0%Q
        | Some owned_asset =>
            let shares := shares_owned owned_asset in
            let adj_close :=
              latest_bar_value (bars self) ticker ADJ_CLOSE_COL in
            let market_value := (inject_Z shares * adj_close)%Q in
            modify (fun p =>
                      set_owned_assets
                        (<[ticker := update_total_position_value adj_close
                                       latest_dt owned_asset]>
                           (owned_assets p)) p) ;;;
            ret market_value
        end in
      let dh := <[ticker := PyNum market_value]> dh in
      let* dh := dict_iadd "total" market_value dh in
      holdings_loop latest_dt rest dh (index ++ [(latest_dt, ticker)])
  end.

(** [Portfolio.update_timeindex] *)
Definition update_timeindex (event : Event) : M Portfolio unit :=
  if negb (bool_decide (event_type event = EventType_MARKET)) then
    throw (InvalidEventTypeError (Member EventType_MARKET)
             (Member (event_type event)))
  else
    let* self := get in
    match ticker_list self with
    | [] => throw StopIteration
    | first :: _ =>
        let latest_dt := get_latest_bar_dt (bars self) first in
        modify (fun p =>
                  set_blotter (blotter_set_current_dt latest_dt (blotter p))
                    p) ;;;
        modify (fun p =>
                  set_blotter (fst (blotter_check_order_triggers (blotter p)))
                    p) ;;;
        let* self := get in
        let dh := _get_temp_dict self in
        let dh := positions_loop self dh in
        let dh := <["cash" := PyNum (cash self)]> dh in
        let dh := <["commission" := PyNum (total_commission self)]> dh in
        let dh := <["total" := PyNum (cash self)]> dh in
        let* r := holdings_loop latest_dt (ticker_list self) dh [] in
        let df : DataFrame := (snd r, fst r) in
        modify (fun p => set_positions_df (positions_df p ++ [df]) p) ;;;
        logger INFO "Writing current portfolio state to DB." ;;;
        let* self := get in
        write_snapshot POSITION_COLLECTION (positions_df self) latest_dt ;;;
        write_snapshot TICK_COLLECTION [df] latest_dt ;;;
        modify (fun p =>
                  set_all_holdings_mv (all_holdings_mv p ++ [fst r]) p)
    end.

(** [BasicPortfolio._update_existing_owned_asset_from_trade] *)
Definition _update_existing_owned_asset_from_trade (trade : Trade)
  : M Portfolio unit :=
  let* self := get in
  match owned_assets self !! trade_ticker trade with
  | None => throw (KeyError (trade_ticker trade))
  | Some owned_asset =>
      match owned_asset_make_trade (trade_qty trade)
              (avg_price_per_share trade) owned_asset with
      | None =>
          modify (fun p =>
                    set_owned_assets
                      (delete (trade_ticker trade) (owned_assets p)) p)
      | Some updated_asset =>
          modify (fun p =>
                    set_owned_assets
                      (<[trade_ticker trade := updated_asset]>
                         (owned_assets p)) p)
      end
  end.

(** [BasicPortfolio._create_new_owned_asset_from_trade] *)
Definition _create_new_owned_asset_from_trade (trade : Trade)
  : M Portfolio unit :=
  let asset_position :=
    match trade_action trade with
    | order.SELL => SHORT
    | order.BUY => LONG
    end in
  modify (fun p =>
            set_owned_assets
              (<[trade_ticker trade :=
                   owned_asset_from_trade trade asset_position]>
                 (owned_assets p)) p).

(** [BasicPortfolio._update_from_trade] *)
Definition _update_from_trade (trade : Trade) : M Portfolio unit :=
  modify (fun p => set_cash (cash p + trade_cost trade)%Q p) ;;;
  modify (fun p =>
            set_total_commission
              (total_commission p + trade_commission trade)%Q p) ;;;
  let* self := get in
  if bool_decide (is_Some (owned_assets self !! trade_ticker trade)) then
    _update_existing_owned_asset_from_trade trade
  else
    _create_new_owned_asset_from_trade trade.

(** [BasicPortfolio.update_fill]: the [if] on the event kind has no
    [else]. *)
Definition update_fill (event : Event) : M Portfolio unit :=
  match event with
  | FillEvent order_id price dt available_volume =>
      let* self := get in
      match blotter_getitem (blotter self) order_id with
      | None => throw (KeyError "order_id")
      | Some order =>
          if check_liquidity price available_volume self then
            let bt :=
              blotter_make_trade order price dt available_volume
                (blotter self) in
            modify (set_blotter (fst bt)) ;;;
            _update_from_trade (snd bt)
          else
            logger WARNING
              ("Insufficient funds available to execute trade for "
                 +:+ "ticker: " +:+ order_ticker order) ;;;
            if raise_on_warnings self then
              throw (InsufficientFundsError (order_ticker order))
            else ret tt
      end
  | _ => ret tt
  end.

(** [BasicPortfolio._process_signal] and [BasicPortfolio.update_signal];
    a handler is given the portfolio, the signal and the triggered
    orders. *)
Variable handle_signal :
  Handler -> Event -> list AnyOrder -> Portfolio -> Portfolio.

Definition _process_signal (signal : Event)
    (triggered_orders : list AnyOrder) : M Portfolio unit :=
  let* self := get in
  modify (fun p =>
            foldl (fun p handler =>
                     handle_signal handler signal triggered_orders p)
              p (signal_handlers self)).

Definition update_signal (event : Event) : M Portfolio unit :=
  if bool_decide (event_type event = EventType_SIGNAL) then
    let* self := get in
    let bt := blotter_check_order_triggers (blotter self) in
    modify (set_blotter (fst bt)) ;;;
    _process_signal event (snd bt)
  else
    throw (InvalidEventTypeError EnumClass EnumClass).

End Portfolio.

(** The mark value of a tracked ticker at a snapshot: shares owned times
    the latest adjusted close, 0 for a ticker that is not owned. *)
Definition mark_value `{Collaborators} (self : Portfolio) (ticker : string)
  : Q :=
  match owned_assets self !! ticker with
  | Some asset =>
      (inject_Z (shares_owned asset)
       * latest_bar_value (bars self) ticker ADJ_CLOSE_COL)%Q
  | None => 0%Q
  end.

Definition sum_mark_values `{Collaborators} (self : Portfolio)
    (l : list string) : Q :=
  fold_right (fun ticker acc => (mark_value self ticker + acc)%Q) 0%Q l.

(** What the weights are divided by. *)
Definition weights_denominator `{Collaborators} (include_cash : bool)
    (self : Portfolio) : Q :=
  if include_cash then total_value self else total_asset_mv self.

(** A small concrete setting: the blotter is a table from order ids to
    tickers, a trade buys at the fill price without commission, and no
    signal handler is registered. *)
Definition table_collaborators : Collaborators :=
  {| Blotter := gmap Z string;
     AnyOrder := string;
     Handler := unit;
     order_ticker := fun o => o;
     blotter_set_current_dt := fun _ b => b;
     blotter_check_order_triggers := fun b => (b, []);
     blotter_getitem := fun b i => b !! i;
     blotter_make_trade := fun o price dt vol b =>
       (b, mkTrade o order.BUY vol price 0 (- (price * inject_Z vol))%Q);
     owned_asset_make_trade := fun q price a =>
       if (shares_owned a + q =? 0)%Z then None
       else Some (mkOwnedAsset (asset_ticker a) (shares_owned a + q)
                    (asset_position a) price
                    (inject_Z (shares_owned a + q) * price)%Q
                    (latest_price_time a));
     owned_asset_from_trade := fun t pos =>
       mkOwnedAsset (trade_ticker t) (trade_qty t) pos
         (avg_price_per_share t)
         (inject_Z (trade_qty t) * avg_price_per_share t)%Q 0 |}.

Definition flat_bars (l : list string) : DataHandler :=
  mkDataHandler l (fun _ => 1%Z) (fun _ _ => (10#1)%Q).

(** A new portfolio with the given tickers and capital, and one resting
    order (id 1, for AAPL) in the blotter; and the same portfolio after a
    purchase of 100 AAPL at 10. *)
Definition new_portfolio (l : list string) (capital : Q) (strict : bool)
  : @Portfolio table_collaborators :=
  @__init__ table_collaborators (flat_bars l) 0
    ({[ 1%Z := "AAPL" ]} : gmap Z string) capital strict.

Definition long_aapl : OwnedAsset :=
  mkOwnedAsset "AAPL" 100 LONG (10#1) (1000#1) 0.

Definition invested_portfolio (l : list string)
  : @Portfolio table_collaborators :=
  @set_owned_assets table_collaborators {[ "AAPL" := long_aapl ]}
    (@set_cash table_collaborators (99000#1)
       (new_portfolio l (100000#1) false)).

End portfolio.

(** * The liquidity check in binary64 arithmetic *)

Module portfolio_float.
Import PrimFloat SpecFloat FloatOps.

Inductive FloatExc := OverflowError (msg : string).

(** The conversion of a Python [int] to a [float], as [float * int] performs
    it on its right operand: the nearest double, ties to even, and
    [OverflowError] where that is beyond the largest finite double. *)
Definition float_of_int (n : Z) : FloatExc + float :=
  let f := SF2Prim (binary_normalize prec emax n 0 false) in
  if is_infinity f
  then inl (OverflowError "int too large to convert to float")
  else inr f.

(** [Portfolio.check_liquidity]; [cash] is [self.cash]. *)
Definition check_liquidity (cash avg_price_per_share : float) (qty : Z)
  : FloatExc + bool :=
  if (qty <? 0)%Z then inr true
  else
    match float_of_int qty with
    | inl e => inl e
    | inr q =>
        let cost := (avg_price_per_share * q)%float in
        let post_trade_cash := (cash - cost)%float in
        inr (0 <? post_trade_cash)%float
    end.

(** The rational number a finite float stands for. *)
Definition Q_of_float (f : float) : option Q :=
  match Prim2SF f with
  | S754_zero _ => Some 0%Q
  | S754_finite s m e =>
      let v := (inject_Z (Z.pos m) * (2 # 1) ^ e)%Q in
      Some (if s then Qopp v else v)
  | _ => None
  end.

End portfolio_float.

(** * Properties of the order state machine *)

Module order_props.
Import order.

Ltac unfold_py :=
  unfold check_order_triggers, trigger_rule, convert_stop_limit, py_ge,
    py_le, bind, get, modify, ret, throw in *.

Ltac order_cases :=
  repeat match goal with
    | |- context [Qle_bool ?a ?b] => destruct (Qle_bool a b) eqn:?; simpl
    | |- context [match ?x with _ => _ end] =>
        destruct x eqn:?; simpl in *; try discriminate
    end.

(** *** The status getter *)

Lemma status_open_amount_zero (self : Order) :
  open_amount self = 0%Z -> status self = FILLED.
Proof. unfold status. intros ->. reflexivity. Qed.

Lemma status_open_amount_nonzero (self : Order) :
  open_amount self <> 0%Z ->
  status self =
    if bool_decide (_status self = HELD) && negb (filled self =? 0)%Z
    then OPEN else _status self.
Proof.
  unfold status. intros H.
  destruct (Z.eqb_spec (open_amount self) 0%Z) as [E|E]; [contradiction|].
  reflexivity.
Qed.

(** C1 (as amended).  The getter reports FILLED whenever [open_amount] is
    zero; with a non-zero [open_amount] it reports OPEN for a stored HELD
    with a non-zero [filled], and the stored status verbatim otherwise.  So
    it reports FILLED exactly when [open_amount] is zero or the stored
    status itself is FILLED. *)
Theorem status_getter_contract (self : Order) :
  (open_amount self = 0%Z -> status self = FILLED) /\
  (open_amount self <> 0%Z -> _status self = HELD -> filled self <> 0%Z ->
     status self = OPEN) /\
  (open_amount self <> 0%Z -> (_status self <> HELD \/ filled self = 0%Z) ->
     status self = _status self) /\
  (status self = FILLED <->
     open_amount self = 0%Z \/ _status self = FILLED).
Proof.
  split; [apply status_open_amount_zero|].
  split.
  { intros Ho Hh Hf. rewrite status_open_amount_nonzero by assumption.
    rewrite Hh. simpl.
    destruct (Z.eqb_spec (filled self) 0%Z); [contradiction|reflexivity]. }
  split.
  { intros Ho [Hh|Hf]; rewrite status_open_amount_nonzero by assumption.
    - rewrite bool_decide_eq_false_2 by assumption. reflexivity.
    - rewrite Hf. simpl. rewrite andb_false_r. reflexivity. }
  split.
  - intros Hs.
    destruct (Z.eq_dec (open_amount self) 0%Z) as [E|E]; [left; exact E|].
    right. rewrite status_open_amount_nonzero in Hs by assumption.
    destruct (bool_decide (_status self = HELD) && negb (filled self =? 0)%Z);
      [discriminate|exact Hs].
  - intros [E|E]; [apply status_open_amount_zero; exact E|].
    destruct (Z.eq_dec (open_amount self) 0%Z) as [E0|E0];
      [apply status_open_amount_zero; exact E0|].
    rewrite status_open_amount_nonzero by assumption.
    rewrite E. reflexivity.
Qed.

(** An order for ten shares, none filled, whose status was assigned FILLED
    through the setter. *)
Definition order_marked_filled : Order :=
  status_setter FILLED
    (__init__ BUY MARKET None None 10 0 (0#1) 0 DAY None).

(** C1, the claim as stated fails: this order reports FILLED while ten
    shares remain open. *)
Lemma status_filled_with_open_amount :
  status order_marked_filled = FILLED /\
  open_amount order_marked_filled = 10%Z /\
  ~ (status order_marked_filled = FILLED <->
     open_amount order_marked_filled = 0%Z).
Proof.
  split; [reflexivity|]. split; [reflexivity|].
  intros [H _]. specialize (H eq_refl). discriminate H.
Qed.

Lemma status_getter_contract_witness :
  open_amount order_marked_filled <> 0%Z /\
  status order_marked_filled = _status order_marked_filled.
Proof.
  split; [discriminate|].
  destruct (status_getter_contract order_marked_filled) as (_ & _ & H & _).
  apply H; [discriminate | left; discriminate].
Defined.

(** *** Construction *)

(** C10 (as amended).  An order built with [qty] equal to [filled]: where
    the action is BUY or [qty] is not positive (so that the constructor
    stores [qty] as given), it has no open amount, the getter reports
    FILLED and [open] is false although the stored status is OPEN; where
    the action is SELL and [qty] is positive, the constructor stores
    [-qty], the open amount is [-2 * qty], the getter reports OPEN and the
    order is open. *)
Theorem init_qty_eq_filled
    (a : TradeAction) (ot : OrderType) (st li : option Q) (q f : Z)
    (c : Q) (cr : Z) (sub : OrderSubType) (mdo : option Z) :
  q = f ->
  let o := __init__ a ot st li q f c cr sub mdo in
  _status o = OPEN /\
  (a = BUY \/ (q <= 0)%Z ->
     open_amount o = 0%Z /\ status o = FILLED /\ open o = false) /\
  (a = SELL -> (0 < q)%Z ->
     qty o = (- q)%Z /\ open_amount o = (-2 * q)%Z /\ status o = OPEN /\
     open o = true).
Proof.
  intros -> o. split; [reflexivity|]. split.
  - intros Ha.
    assert (Hq : qty o = f).
    { subst o. simpl. destruct a; [reflexivity|].
      destruct Ha as [Ha|Ha]; [discriminate|].
      destruct (Z.ltb_spec 0 f); [lia|reflexivity]. }
    assert (Ho : open_amount o = 0%Z).
    { unfold open_amount. rewrite Hq. subst o. simpl. lia. }
    split; [exact Ho|].
    assert (Hs : status o = FILLED)
      by (apply status_open_amount_zero; exact Ho).
    split; [exact Hs|]. unfold open. rewrite Hs. reflexivity.
  - intros -> Hpos.
    assert (Hq : qty o = (- f)%Z).
    { subst o. simpl. destruct (Z.ltb_spec 0 f); lia. }
    assert (Ho : open_amount o = (-2 * f)%Z).
    { unfold open_amount. rewrite Hq. subst o. simpl. lia. }
    assert (Hs : status o = OPEN).
    { rewrite status_open_amount_nonzero by lia. reflexivity. }
    split; [exact Hq|]. split; [exact Ho|]. split; [exact Hs|].
    unfold open. rewrite Hs. reflexivity.
Qed.

Lemma init_qty_eq_filled_witness :
  (let o := __init__ BUY MARKET None None 0 0 (0#1) 0 DAY None in
   open_amount o = 0%Z /\ status o = FILLED /\ open o = false) /\
  (let o := __init__ SELL MARKET None None 7 7 (0#1) 0 DAY None in
   qty o = (-7)%Z /\ open_amount o = (-14)%Z /\ status o = OPEN /\
   open o = true).
Proof.
  split.
  - destruct (init_qty_eq_filled BUY MARKET None None 0 0 (0#1) 0 DAY None
                eq_refl) as (_ & Hb & _).
    apply Hb. left. reflexivity.
  - destruct (init_qty_eq_filled SELL MARKET None None 7 7 (0#1) 0 DAY None
                eq_refl) as (_ & _ & Hs).
    apply Hs; [reflexivity | lia].
Defined.

(** C10, the claim as stated fails: a SELL built with [qty = 5] and
    [filled = 5] stores [qty = -5], so ten shares are open, the getter
    reports OPEN and [open] is true. *)
Lemma init_sell_qty_eq_filled_open :
  let o := __init__ SELL MARKET None None 5 5 (0#1) 0 DAY None in
  qty o = (-5)%Z /\ open_amount o = (-10)%Z /\ status o = OPEN /\
  open o = true.
Proof. repeat split. Qed.

(** *** Trigger evaluation *)

Ltac by_cases_on self :=
  destruct self as [a ot sub mdo q c st li sr lr f s r cr lu cd];
  unfold tick, triggered; unfold_py; simpl in *;
  destruct ot, a, st, li, sr, lr; simpl in *; try discriminate;
  order_cases; simpl; auto.

(** One call leaves the order type alone or turns STOP_LIMIT into LIMIT. *)
Lemma tick_order_type (self : Order) (t : Q * Z) :
  order_type (tick self t) = order_type self \/
  (order_type self = STOP_LIMIT /\ order_type (tick self t) = LIMIT).
Proof. destruct t as [p now]. by_cases_on self. Qed.

Lemma tick_not_stop_limit (self : Order) (t : Q * Z) :
  order_type self <> STOP_LIMIT -> order_type (tick self t) <> STOP_LIMIT.
Proof.
  intros H. destruct (tick_order_type self t) as [E|[E _]];
    [rewrite E; exact H | contradiction].
Qed.

Lemma conversions_not_stop_limit (ticks : list (Q * Z)) :
  forall self, order_type self <> STOP_LIMIT -> conversions self ticks = 0%nat.
Proof.
  induction ticks as [|t ts IH]; intros self H; [reflexivity|].
  cbn [conversions]. unfold converted.
  rewrite (bool_decide_eq_false_2 _ H). simpl.
  apply IH, tick_not_stop_limit, H.
Qed.

Lemma conversions_at_most_once (ticks : list (Q * Z)) :
  forall self, (conversions self ticks <= 1)%nat.
Proof.
  induction ticks as [|t ts IH]; intros self; [cbn; lia|].
  cbn [conversions]. destruct (converted self (tick self t)) eqn:E.
  - unfold converted in E. apply andb_true_iff in E as [_ E].
    apply bool_decide_eq_true_1 in E.
    rewrite conversions_not_stop_limit; [lia|].
    rewrite E. discriminate.
  - specialize (IH (tick self t)). lia.
Qed.

(** The conversion is the only place where the order type and the stop
    price are written: a tick converts exactly when it leaves a STOP_LIMIT
    order with its stop reached and compares no missing limit. *)
Lemma converted_clears_stop (self : Order) (t : Q * Z) :
  converted self (tick self t) = true -> stop (tick self t) = None.
Proof.
  destruct t as [p now]. unfold converted.
  by_cases_on self; intros H; try discriminate H; reflexivity.
Qed.

(** C2.  A STOP_LIMIT BUY order with stop 50 and limit 55, ticked at 48, 51
    and 56: the first tick leaves it untriggered; the second reaches the
    stop, turns the order into a LIMIT order and clears [stop]; the third
    reaches the limit and the order is triggered.  Along any run of ticks
    of any order the conversion happens at most once. *)
Theorem stop_limit_buy_scenario
    (q f : Z) (c : Q) (cr : Z) (sub : OrderSubType) (mdo : option Z)
    (now1 now2 now3 : Z) :
  let o0 := __init__ BUY STOP_LIMIT (Some (50#1)) (Some (55#1))
              q f c cr sub mdo in
  (exists o1 o2 o3,
     check_order_triggers (48#1) now1 o0 = Return None o1 /\
     triggered o1 = false /\
     check_order_triggers (51#1) now2 o1 = Return None o2 /\
     stop_reached o2 = true /\ order_type o2 = LIMIT /\ stop o2 = None /\
     limit_reached o2 = false /\ triggered o2 = false /\
     check_order_triggers (56#1) now3 o2 = Return None o3 /\
     limit_reached o3 = true /\ triggered o3 = true /\
     order_type o3 = LIMIT /\
     conversions o0 [(48#1, now1); (51#1, now2); (56#1, now3)] = 1%nat) /\
  (forall (self : Order) (ticks : list (Q * Z)),
     (conversions self ticks <= 1)%nat).
Proof.
  intros o0. split; [|intros self ticks; apply conversions_at_most_once].
  exists (tick o0 (48#1, now1)),
         (tick (tick o0 (48#1, now1)) (51#1, now2)),
         (tick (tick (tick o0 (48#1, now1)) (51#1, now2)) (56#1, now3)).
  subst o0.
  repeat match goal with |- _ /\ _ => split end; vm_compute; reflexivity.
Qed.

(** C3.  A STOP_LIMIT SELL order that is not yet triggered: one call sets
    [stop_reached] exactly when the price is at or below the stop, and sets
    [limit_reached] exactly when, the stop having been reached by this call,
    the price is at or above the limit. *)
Theorem stop_limit_sell_rule (self : Order) (s l p : Q) (now : Z) :
  order_type self = STOP_LIMIT -> action self = SELL ->
  triggered self = false ->
  stop self = Some s -> limit self = Some l ->
  exists self',
    check_order_triggers p now self = Return None self' /\
    stop_reached self' = stop_reached self || Qle_bool p s /\
    limit_reached self' =
      limit_reached self || (Qle_bool p s && Qle_bool l p) /\
    (stop_reached self = false ->
       (stop_reached self' = true <-> (p <= s)%Q)) /\
    (limit_reached self = false ->
       (limit_reached self' = true <-> (p <= s)%Q /\ (l <= p)%Q)).
Proof.
  intros Hot Ha Ht Hs Hl.
  destruct self as [a ot sub mdo q c st li sr lr f s0 r cr lu cd].
  simpl in *. subst. unfold triggered in Ht. simpl in Ht.
  unfold_py. unfold triggered. simpl.
  pose proof (Qle_bool_iff p s) as Hps.
  pose proof (Qle_bool_iff l p) as Hlp.
  destruct sr, lr; simpl in *; try discriminate Ht;
    destruct (Qle_bool p s), (Qle_bool l p); simpl;
    eexists; (split; [reflexivity|]); simpl; intuition congruence.
Qed.

Lemma stop_limit_sell_rule_witness :
  exists self',
    check_order_triggers (40#1) 7
      (__init__ SELL STOP_LIMIT (Some (50#1)) (Some (45#1)) 10 0 (0#1) 0
         DAY None) = Return None self' /\
    stop_reached self' = true /\ limit_reached self' = false.
Proof.
  destruct (stop_limit_sell_rule
              (__init__ SELL STOP_LIMIT (Some (50#1)) (Some (45#1)) 10 0
                 (0#1) 0 DAY None) (50#1) (45#1) (40#1) 7
              eq_refl eq_refl eq_refl eq_refl eq_refl)
    as (self' & H & Hs & Hl & _).
  exists self'. split; [exact H|]. split; [exact Hs | exact Hl].
Defined.

(** The plain LIMIT SELL rule, for contrast: the limit is reached when the
    price is at or below it. *)
Lemma limit_sell_rule (self : Order) (l p : Q) (now : Z) :
  order_type self = LIMIT -> action self = SELL ->
  triggered self = false -> limit self = Some l ->
  exists self',
    check_order_triggers p now self = Return None self' /\
    limit_reached self' = limit_reached self || Qle_bool p l.
Proof.
  intros Hot Ha Ht Hl.
  destruct self as [a ot sub mdo q c st li sr lr f s0 r cr lu cd].
  simpl in *. subst. unfold triggered in Ht. simpl in Ht.
  unfold_py. unfold triggered. simpl.
  destruct st, sr, lr; simpl in *; try discriminate Ht;
    destruct (Qle_bool p l); simpl; eexists; (split; [reflexivity|]);
    reflexivity.
Qed.

(** *** Idempotence *)

(** A STOP_LIMIT order whose stop was reached has no limit: the only way to
    leave the order in that state is the [TypeError] of the limit
    comparison. *)
Definition stop_limit_inv (self : Order) : Prop :=
  order_type self = STOP_LIMIT -> stop_reached self = true ->
  limit self = None.

Lemma tick_stop_limit_inv (self : Order) (t : Q * Z) :
  stop_limit_inv self -> stop_limit_inv (tick self t).
Proof.
  destruct t as [p now]. unfold stop_limit_inv.
  by_cases_on self; intros H; intros; try discriminate;
    try reflexivity; auto.
Qed.

Lemma reachable_stop_limit_inv (self : Order) :
  reachable self -> stop_limit_inv self.
Proof.
  induction 1; try exact IHreachable.
  - intros _ H. discriminate H.
  - apply tick_stop_limit_inv, IHreachable.
Qed.

Lemma triggered_no_change (self : Order) (p : Q) (now : Z) :
  triggered self = true ->
  check_order_triggers p now self =
    Return (if bool_decide (order_type self = MARKET) then Some true
            else None) self.
Proof.
  intros Ht. unfold_py. rewrite Ht.
  destruct (bool_decide (order_type self = MARKET)); reflexivity.
Qed.

Lemma no_condition_no_change (self : Order) (p : Q) (now : Z) :
  stop_limit_inv self -> trigger_condition self p = Some false ->
  check_order_triggers p now self =
    Return (if bool_decide (order_type self = MARKET) then Some true
            else None) self.
Proof.
  unfold stop_limit_inv, trigger_condition.
  destruct self as [a ot sub mdo q c st li sr lr f s r cr lu cd].
  unfold triggered; unfold_py; simpl.
  intros Hinv Hc.
  destruct ot, a, st, li, sr, lr; simpl in *; try discriminate Hc;
    try reflexivity;
    try (injection Hc as Hc; rewrite Hc; reflexivity);
    try (specialize (Hinv eq_refl eq_refl); discriminate Hinv).
Qed.

Lemma second_call_no_change (self self1 : Order) (p : Q) (now now' : Z)
    (r : option bool) :
  check_order_triggers p now self = Return r self1 ->
  trigger_condition self1 p = Some false ->
  check_order_triggers p now' self1 = Return r self1.
Proof.
  unfold trigger_condition.
  destruct self as [a ot sub mdo q c st li sr lr f s r0 cr lu cd].
  unfold triggered; unfold_py; simpl.
  destruct ot, a, st, li, sr, lr; simpl;
    repeat match goal with
      | |- context [Qle_bool ?x ?y] => destruct (Qle_bool x y) eqn:?; simpl
      end;
    intros H; inversion H; subst; clear H; simpl; intros Hc;
    try discriminate Hc; try reflexivity;
    try (injection Hc as Hc; rewrite ?Hc; simpl; reflexivity);
    try congruence.
Qed.

(** C8.  Calling [check_order_triggers] on an order that is already
    triggered changes nothing.  When no trigger condition is met at the
    price, a call on an order produced by this module changes nothing, and
    neither does a second call at the same price; the same holds for the
    second of any two calls whenever the condition is not met at it. *)
Theorem check_order_triggers_idempotent
    (self : Order) (p : Q) (now now' : Z) :
  (triggered self = true ->
     exists r, check_order_triggers p now self = Return r self) /\
  (reachable self -> trigger_condition self p = Some false ->
     exists r self1,
       check_order_triggers p now self = Return r self1 /\ self1 = self /\
       check_order_triggers p now' self1 = Return r self1) /\
  (forall r self1,
     check_order_triggers p now self = Return r self1 ->
     trigger_condition self1 p = Some false ->
     check_order_triggers p now' self1 = Return r self1).
Proof.
  split; [|split].
  - intros Ht. eexists. apply triggered_no_change, Ht.
  - intros Hr Hc. apply reachable_stop_limit_inv in Hr.
    eexists _, self. split; [apply no_condition_no_change; assumption|].
    split; [reflexivity|]. apply no_condition_no_change; assumption.
  - intros r self1. apply second_call_no_change.
Qed.

(** A STOP BUY order with stop 50, not filled, ticked twice at 48. *)
Lemma check_order_triggers_idempotent_witness :
  let o := __init__ BUY STOP (Some (50#1)) None 10 0 (0#1) 0 DAY None in
  check_order_triggers (48#1) 2 (tick o (48#1, 1%Z)) =
    Return None (tick o (48#1, 1%Z)) /\
  tick o (48#1, 1%Z) = o.
Proof.
  intros o.
  destruct (check_order_triggers_idempotent o (48#1) 1 2)
    as (_ & H2 & H3).
  split.
  - apply H3; reflexivity.
  - destruct (H2 (reach_init _ _ _ _ _ _ _ _ _ _) eq_refl)
      as (r & self1 & E1 & E2 & _).
    unfold tick. simpl fst. simpl snd. rewrite E1. exact E2.
Defined.

End order_props.

(** * Properties of the portfolio *)

Module portfolio_props.
Import portfolio.

Lemma Qltb_lt (x y : Q) : Qltb x y = true <-> (x < y)%Q.
Proof.
  unfold Qltb. rewrite negb_true_iff.
  split.
  - intros E. apply Qnot_le_lt. intros Hle.
    apply Qle_bool_iff in Hle. congruence.
  - intros Hlt. destruct (Qle_bool y x) eqn:E; [|reflexivity].
    apply Qle_bool_iff in E. exfalso. exact (Qlt_not_le _ _ Hlt E).
Qed.

Section Facts.
Context `{Collaborators}.
Variable handle_signal :
  Handler -> Event -> list AnyOrder -> Portfolio -> Portfolio.

Ltac unfold_m :=
  unfold bind, get, modify, ret, throw, logger, write_snapshot in *.

(** *** Liquidity *)

(** In exact rational arithmetic [check_liquidity] is true for every
    negative quantity; for a quantity that is not negative it is true
    exactly when the cash left after paying price times quantity is
    strictly positive. *)
Lemma check_liquidity_exact (self : Portfolio) (price : Q) (qty : Z) :
  ((qty < 0)%Z -> check_liquidity price qty self = true) /\
  ((0 <= qty)%Z ->
     (check_liquidity price qty self = true <->
      (0 < cash self - price * inject_Z qty)%Q)).
Proof.
  unfold check_liquidity. split; intros Hq.
  - destruct (Z.ltb_spec qty 0); [reflexivity|lia].
  - destruct (Z.ltb_spec qty 0); [lia|]. apply Qltb_lt.
Qed.

(** *** Fill processing *)


(** *** Event kinds *)

(** C4 (what the code does).  With an event of another kind,
    [update_timeindex] and [update_signal] raise [InvalidEventTypeError]
    and leave the portfolio as it was; [update_fill] raises nothing: it
    returns, leaving the portfolio as it was. *)
Theorem handlers_on_wrong_event (self : Portfolio) (event : Event) :
  (event_type event <> EventType_MARKET ->
     update_timeindex event self =
       Raise (InvalidEventTypeError (Member EventType_MARKET)
                (Member (event_type event))) self) /\
  (event_type event <> EventType_SIGNAL ->
     update_signal handle_signal event self =
       Raise (InvalidEventTypeError EnumClass EnumClass) self) /\
  (event_type event <> EventType_FILL ->
     update_fill event self = Return tt self /\
     raised (update_fill event self) = None).
Proof.
  split; [|split]; intros Hk.
  - unfold update_timeindex. rewrite bool_decide_eq_false_2 by exact Hk.
    reflexivity.
  - unfold update_signal. rewrite bool_decide_eq_false_2 by exact Hk.
    reflexivity.
  - destruct event; simpl in *; try (split; reflexivity).
    contradiction.
Qed.

(** *** Snapshots *)

Lemma mark_value_logged (s : Portfolio) (l : list (LogLevel * string))
    (t : string) :
  mark_value (set_log l s) t = mark_value s t.
Proof. reflexivity. Qed.

Lemma mark_value_updated (s : Portfolio) (ticker : string) (a : OwnedAsset)
    (price : Q) (dt : Z) (t : string) :
  owned_assets s !! ticker = Some a ->
  mark_value
    (set_owned_assets
       (<[ticker := update_total_position_value price dt a]>
          (owned_assets s)) s) t = mark_value s t.
Proof.
  intros Ha. unfold mark_value. simpl.
  destruct (decide (ticker = t)) as [->|Hne].
  - rewrite lookup_insert_eq, Ha. reflexivity.
  - rewrite lookup_insert_ne by exact Hne. reflexivity.
Qed.

Lemma sum_mark_values_ext (s s' : Portfolio) (l : list string) :
  (forall t, mark_value s' t = mark_value s t) ->
  sum_mark_values s' l = sum_mark_values s l.
Proof.
  intros E. induction l as [|t l IH]; [reflexivity|].
  simpl. rewrite E, IH. reflexivity.
Qed.

(** The second loop: it returns; [total] grows by the mark values of the
    tickers it visits, each of which gets its own field; nothing but the
    owned assets and the log is written. *)
Lemma holdings_loop_spec (dt : Z) (l : list string) :
  forall (dh : gmap string pyval) (idx : list (Z * string))
         (s : Portfolio) (x : Q),
    "total" ∉ l -> dh !! "total" = Some (PyNum x) ->
    exists dh' idx' s' x',
      holdings_loop dt l dh idx s = Return (dh', idx') s' /\
      dh' !! "total" = Some (PyNum x') /\
      (x' == x + sum_mark_values s l)%Q /\
      (forall t, t ∈ l -> dh' !! t = Some (PyNum (mark_value s t))) /\
      (forall t, t ∉ l -> t <> "total" -> dh' !! t = dh !! t) /\
      all_holdings_mv s' = all_holdings_mv s /\
      positions_df s' = positions_df s /\
      lib s' = lib s /\
      cash s' = cash s /\
      (forall t, mark_value s' t = mark_value s t).
Proof.
  induction l as [|ticker rest IH]; intros dh idx s x Hnot Hdh.
  - exists dh, idx, s, x. simpl. unfold_m.
    split; [reflexivity|]. split; [exact Hdh|].
    split; [ring|]. split; [intros t Ht; inversion Ht|].
    repeat split; reflexivity.
  - apply not_elem_of_cons in Hnot as [Hne Hrest].
    assert (Hne' : ticker <> "total") by congruence.
    set (mv := mark_value s ticker).
    set (dh1 := <["total" := PyNum (x + mv)%Q]>
                  (<[ticker := PyNum mv]> dh)).
    assert (Hdh1 : dh1 !! "total" = Some (PyNum (x + mv)%Q))
      by apply lookup_insert_eq.
    assert (Hstep : exists s1,
               holdings_loop dt (ticker :: rest) dh idx s =
                 holdings_loop dt rest dh1 (idx ++ [(dt, ticker)]) s1 /\
               all_holdings_mv s1 = all_holdings_mv s /\
               positions_df s1 = positions_df s /\
               lib s1 = lib s /\ cash s1 = cash s /\
               (forall t, mark_value s1 t = mark_value s t)).
    { cbn [holdings_loop]. unfold_m. unfold dict_iadd. unfold_m.
      subst dh1 mv. unfold mark_value at 1 2.
      destruct (owned_assets s !! ticker) as [a|] eqn:Ea.
      - eexists. rewrite lookup_insert_ne by exact Hne'. rewrite Hdh.
        split; [reflexivity|]. repeat split.
        intros t. apply mark_value_updated, Ea.
      - eexists. rewrite lookup_insert_ne by exact Hne'. rewrite Hdh.
        split; [reflexivity|]. repeat split. }
    destruct Hstep as (s1 & Hs & Hh1 & Hp1 & Hl1 & Hc1 & Hm1).
    destruct (IH dh1 (idx ++ [(dt, ticker)]) s1 _ Hrest Hdh1)
      as (dh' & idx' & s' & x' & Hr & Ht & Hx & Hin & Hout & Hh & Hp & Hl
          & Hc & Hm).
    exists dh', idx', s', x'.
    split; [rewrite Hs; exact Hr|]. split; [exact Ht|].
    split.
    { rewrite Hx. rewrite (sum_mark_values_ext s s1 rest Hm1).
      simpl. fold mv. ring. }
    split.
    { intros t Hin'. apply elem_of_cons in Hin' as [->|Hin'].
      - destruct (decide (ticker ∈ rest)) as [Hi|Hi].
        + rewrite (Hin _ Hi). rewrite Hm1. reflexivity.
        + rewrite (Hout _ Hi Hne'). subst dh1.
          rewrite lookup_insert_ne by exact Hne.
          rewrite lookup_insert_eq. reflexivity.
      - rewrite (Hin _ Hin'). rewrite Hm1. reflexivity. }
    split.
    { intros t Hnin Htot. apply not_elem_of_cons in Hnin as [Hn1 Hn2].
      rewrite (Hout _ Hn2 Htot). subst dh1.
      rewrite lookup_insert_ne by congruence.
      rewrite lookup_insert_ne by congruence. reflexivity. }
    split; [congruence|]. split; [congruence|]. split; [congruence|].
    split; [congruence|]. intros t. rewrite Hm. apply Hm1.
Qed.

(** Where no tracked ticker is named [total], and in exact rational
    arithmetic: with a MARKET event and at least one tracked ticker,
    [update_timeindex] returns and appends one row to the holdings; in
    that row [total] is the cash plus the sum, over the tracked tickers,
    of their mark values, and the field of each tracked ticker is its mark
    value. *)
Theorem update_timeindex_total (self : Portfolio) (event : Event) :
  event_type event = EventType_MARKET ->
  ticker_list self <> [] ->
  "total" ∉ ticker_list self ->
  exists self' dh total,
    update_timeindex event self = Return tt self' /\
    all_holdings_mv self' = all_holdings_mv self ++ [dh] /\
    dh !! "total" = Some (PyNum total) /\
    (total == cash self + sum_mark_values self (ticker_list self))%Q /\
    (forall t, t ∈ ticker_list self ->
       dh !! t = Some (PyNum (mark_value self t))).
Proof.
  intros Hk Hne Hnot.
  unfold update_timeindex. rewrite Hk. simpl. unfold_m.
  destruct (ticker_list self) as [|first rest] eqn:Hl; [contradiction|].
  rewrite <- Hl in *. simpl.
  match goal with
  | |- context [holdings_loop ?dt ?l ?dh ?idx ?s] =>
      destruct (holdings_loop_spec dt l dh idx s (cash self) Hnot
                  (lookup_insert_eq _ _ _))
        as (dh' & idx' & s' & x' & Hr & Ht & Hx & Hin & _ & Hh & _ & _ & _
            & _);
      rewrite Hr
  end.
  eexists _, dh', x'.
  split; [reflexivity|]. simpl.
  split; [rewrite Hh; reflexivity|]. split; [exact Ht|].
  split; [exact Hx|]. exact Hin.
Qed.

(** *** Weights and market values *)

Lemma Qeq_bool_false (x y : Q) : ~ (x == y)%Q -> Qeq_bool x y = false.
Proof.
  intros Hne. destruct (Qeq_bool x y) eqn:E; [|reflexivity].
  apply Qeq_bool_iff in E. contradiction.
Qed.

(** With a non-zero total the loop of [current_weights] returns: every
    item gets its weight and the other keys are left alone. *)
Lemma weights_loop_spec (total_mv : Q) (items : list (string * OwnedAsset)) :
  Qeq_bool total_mv 0 = false ->
  forall (weights : gmap string Q) (s : Portfolio),
  exists weights',
    weights_loop total_mv items weights s = Return weights' s /\
    (forall t, t ∉ items.*1 -> weights' !! t = weights !! t) /\
    (forall t a, NoDup (items.*1) -> (t, a) ∈ items ->
       weights' !! t = Some (total_position_value a / total_mv)%Q).
Proof.
  intros Hz. induction items as [|[k a] rest IH]; intros weights s.
  - exists weights. split; [reflexivity|].
    split; [reflexivity|]. intros t b _ Hin. inversion Hin.
  - cbn [weights_loop]. unfold py_div, bind. rewrite Hz. unfold ret.
    destruct (IH (<[k := (total_position_value a / total_mv)%Q]> weights) s)
      as (w' & Hr & Hout & Hin).
    exists w'. split; [exact Hr|]. split.
    + intros t Ht. cbn in Ht. apply not_elem_of_cons in Ht as [Hne Ht].
      rewrite (Hout _ Ht). apply lookup_insert_ne. congruence.
    + intros t b Hnd Hb. cbn in Hnd. apply NoDup_cons in Hnd as [Hk Hnd].
      apply elem_of_cons in Hb as [Hb|Hb].
      * injection Hb as -> ->. rewrite (Hout _ Hk).
        apply lookup_insert_eq.
      * apply (Hin _ _ Hnd Hb).
Qed.

Lemma not_owned_not_item (self : Portfolio) (ticker : string) :
  owned_assets self !! ticker = None ->
  ticker ∉ (map_to_list (owned_assets self)).*1.
Proof.
  intros Hn Hin. apply list_elem_of_fmap in Hin as ([k a] & -> & Hin).
  apply elem_of_map_to_list in Hin. simpl in Hn. congruence.
Qed.


End Facts.


(** C4, the failing input: a MARKET event handed to [update_fill] of a
    new portfolio is accepted silently. *)
Lemma update_fill_accepts_market_event :
  update_fill MarketEvent (new_portfolio ["AAPL"] (100000#1) false) =
    Return tt (new_portfolio ["AAPL"] (100000#1) false) /\
  update_timeindex (FillEvent 1 (10#1) 5 100)
    (new_portfolio ["AAPL"] (100000#1) false) =
    Raise (InvalidEventTypeError (Member EventType_MARKET)
             (Member EventType_FILL))
      (new_portfolio ["AAPL"] (100000#1) false).
Proof.
  destruct (@handlers_on_wrong_event table_collaborators
              (fun _ _ _ p => p)
              (new_portfolio ["AAPL"] (100000#1) false) MarketEvent)
    as (_ & _ & H3).
  destruct (@handlers_on_wrong_event table_collaborators
              (fun _ _ _ p => p)
              (new_portfolio ["AAPL"] (100000#1) false)
              (FillEvent 1 (10#1) 5 100))
    as (H1 & _ & _).
  split.
  - apply H3. discriminate.
  - apply H1. discriminate.
Defined.

Lemma update_timeindex_total_witness :
  exists self' dh total,
    update_timeindex MarketEvent (invested_portfolio ["AAPL"; "MSFT"]) =
      Return tt self' /\
    all_holdings_mv self' =
      all_holdings_mv (invested_portfolio ["AAPL"; "MSFT"]) ++ [dh] /\
    dh !! "total" = Some (PyNum total) /\
    (total == 100000#1)%Q.
Proof.
  destruct (@update_timeindex_total table_collaborators
              (invested_portfolio ["AAPL"; "MSFT"]) MarketEvent)
    as (self' & dh & total & Hr & Hh & Ht & Hx & _).
  - reflexivity.
  - discriminate.
  - intros Hin. apply elem_of_cons in Hin as [Hin|Hin]; [discriminate|].
    apply elem_of_cons in Hin as [Hin|Hin]; [discriminate|].
    inversion Hin.
  - exists self', dh, total.
    split; [exact Hr|]. split; [exact Hh|]. split; [exact Ht|].
    rewrite Hx. reflexivity.
Defined.

(** C7 (the code at the failing input).  With a tracked ticker named
    [total] the second loop writes that ticker's mark value under the key
    [total], over the running total it is accumulating: for a new
    portfolio with cash 100000 that tracks [total] and owns nothing,
    [update_timeindex] returns and the appended row has [total = 0], not
    the cash plus the mark values, 100000. *)
Lemma update_timeindex_ticker_named_total :
  let p := new_portfolio ["total"] (100000#1) false in
  let r := update_timeindex MarketEvent p in
  raised r = None /\
  length (all_holdings_mv (state_of r)) = S (length (all_holdings_mv p)) /\
  (last (all_holdings_mv (state_of r)) ≫= (fun dh => dh !! "total")) =
    Some (PyNum (0 + 0)) /\
  cash p = 100000#1 /\
  sum_mark_values p (ticker_list p) = (0 + 0)%Q /\
  ~ (0 + 0 == cash p + sum_mark_values p (ticker_list p))%Q.
Proof.
  intros p r. subst r p.
  split; [vm_compute; reflexivity|].
  split; [vm_compute; reflexivity|].
  split; [vm_compute; reflexivity|].
  split; [reflexivity|].
  split; [vm_compute; reflexivity|].
  intros E. vm_compute in E. discriminate E.
Qed.

(** The row total against [total_value].  The row sums over the tracked
    tickers and [total_value] over the owned assets, so the two differ as
    soon as the two collections do: with cash 99000 and 100 AAPL worth
    1000, [total_value] is 100000 after the call, while the row total is
    99000 when AAPL is owned but not tracked, and 101000 when AAPL is
    listed twice. *)
Lemma update_timeindex_row_total_vs_total_value :
  (let r := update_timeindex MarketEvent (invested_portfolio ["MSFT"]) in
   exists total,
     raised r = None /\
     (last (all_holdings_mv (state_of r)) ≫= (fun dh => dh !! "total")) =
       Some (PyNum total) /\
     (total == 99000#1)%Q /\
     (total_value (state_of r) == 100000#1)%Q) /\
  (let r :=
     update_timeindex MarketEvent (invested_portfolio ["AAPL"; "AAPL"]) in
   exists total,
     raised r = None /\
     (last (all_holdings_mv (state_of r)) ≫= (fun dh => dh !! "total")) =
       Some (PyNum total) /\
     (total == 101000#1)%Q /\
     (total_value (state_of r) == 100000#1)%Q).
Proof.
  split; cbv zeta; eexists;
    (split; [vm_compute; reflexivity|]);
    (split; [vm_compute; reflexivity|]);
    split; vm_compute; reflexivity.
Qed.



End portfolio_props.

(** * Properties of the liquidity check in binary64 arithmetic *)

Module portfolio_float_props.
Import PrimFloat SpecFloat FloatOps FloatAxioms.
Import portfolio_float.

(** C6 (amended).  [check_liquidity] returns [True] for every negative
    quantity, whatever the cash and the price.  For a quantity that is not
    negative and converts to the float [q], it returns the comparison
    [0 < cash - price * q] of the floats: it is [True] exactly when zero is
    below the IEEE 754 difference of the cash and the IEEE 754 product of
    price and quantity, each rounded to the nearest double.  For a
    quantity that is not negative and too large to convert, it raises
    [OverflowError]. *)
Theorem check_liquidity_float_spec (cash price : float) (qty : Z) :
  ((qty < 0)%Z -> check_liquidity cash price qty = inr true) /\
  (forall q, (0 <= qty)%Z -> float_of_int qty = inr q ->
     check_liquidity cash price qty = inr (0 <? cash - price * q)%float /\
     (check_liquidity cash price qty = inr true <->
        SFltb (S754_zero false)
          (SF64sub (Prim2SF cash) (SF64mul (Prim2SF price) (Prim2SF q)))
        = true)) /\
  (forall e, (0 <= qty)%Z -> float_of_int qty = inl e ->
     check_liquidity cash price qty = inl e).
Proof.
  unfold check_liquidity. split; [|split].
  - intros Hq. destruct (Z.ltb_spec qty 0); [reflexivity|lia].
  - intros q Hq Hc. destruct (Z.ltb_spec qty 0); [lia|].
    rewrite Hc. cbv zeta. split; [reflexivity|].
    rewrite ltb_spec, sub_spec, mul_spec.
    change (Prim2SF 0) with (S754_zero false).
    split; [intros E; injection E; trivial | intros E; rewrite E; reflexivity].
  - intros e Hq Hc. destruct (Z.ltb_spec qty 0); [lia|].
    rewrite Hc. reflexivity.
Qed.

(** Cash 100000 and price 10: 100 shares pass, 10000 shares do not; a sale
    passes with cash 1. *)
Lemma check_liquidity_float_spec_witness :
  check_liquidity 100000 10 100 = inr true /\
  check_liquidity 100000 10 10000 = inr false /\
  check_liquidity 1 10 (-5) = inr true.
Proof.
  split; [|split].
  - destruct (check_liquidity_float_spec 100000 10 100) as (_ & H2 & _).
    destruct (H2 100%float) as [E _]; [lia|reflexivity|].
    rewrite E. reflexivity.
  - destruct (check_liquidity_float_spec 100000 10 10000) as (_ & H2 & _).
    destruct (H2 10000%float) as [E _]; [lia|reflexivity|].
    rewrite E. reflexivity.
  - destruct (check_liquidity_float_spec 1 10 (-5)) as (H1 & _).
    apply H1. lia.
Defined.

(** C6 (the claim as stated, at two inputs).  With cash
    0.30000000000000004 and price 0.1, both doubles, and quantity 3, the
    cash exceeds three times the price, by 2^-55, but the product rounds
    up to the cash, the difference is 0 and the check returns [False].
    With quantity 2^1024, which is not negative, the multiplication raises
    [OverflowError] and the check returns nothing. *)
Lemma check_liquidity_rounds :
  let cash := 0x1.3333333333334p-2%float in
  let price := 0x1.999999999999ap-4%float in
  check_liquidity cash price 3 = inr false /\
  (exists c p : Q,
     Q_of_float cash = Some c /\ Q_of_float price = Some p /\
     (c == 5404319552844596 # 18014398509481984)%Q /\
     (p == 7205759403792794 # 72057594037927936)%Q /\
     (c - p * inject_Z 3 == 1 # 36028797018963968)%Q /\
     (0 < c - p * inject_Z 3)%Q) /\
  check_liquidity 1 (-1) (2 ^ 1024) =
    inl (OverflowError "int too large to convert to float").
Proof.
  cbv zeta. split; [vm_compute; reflexivity|]. split.
  - eexists _, _.
    repeat match goal with |- _ /\ _ => split end;
      [vm_compute; reflexivity ..].
  - vm_compute. reflexivity.
Qed.

(** At that input the exact version of the check, on the rationals the
    two floats stand for, is [True]. *)
Lemma check_liquidity_exact_differs :
  portfolio.check_liquidity (7205759403792794 # 72057594037927936) 3
    (portfolio.new_portfolio ["AAPL"]
       (5404319552844596 # 18014398509481984) false) = true /\
  check_liquidity 0x1.3333333333334p-2 0x1.999999999999ap-4 3 = inr false.
Proof.
  split; vm_compute; reflexivity.
Qed.

End portfolio_float_props.

(** * The helpers of [pytech/utils] *)

(** ** [pytech/utils/utils.py] *)

Module utils.

(** The classes that [parse_date] tests with [isinstance], and the
    subclass relation among them: a [datetime] is a [date], and a pandas
    [Timestamp] is a [datetime]. *)
Inductive PyClass :=
| cls_date | cls_datetime | cls_Timestamp | cls_TimeSeries | cls_str
| cls_other.

#[global] Instance PyClass_eq_dec : EqDecision PyClass.
Proof. solve_decision. Defined.









End utils.

(** ** [pytech/utils/pandas_utils.py] *)

Module pandas_utils.

Definition DATE_COL : string := "date".
Definition OPEN_COL : string := "open".
Definition HIGH_COL : string := "high".
Definition LOW_COL : string := "low".
Definition CLOSE_COL : string := "close".
Definition ADJ_CLOSE_COL : string := "adj_close".
Definition VOL_COL : string := "volume".
Definition TICKER_COL : string := "ticker".

Definition REQUIRED_COLS : gset string :=
  list_to_set
    [DATE_COL; OPEN_COL; HIGH_COL; LOW_COL; CLOSE_COL; ADJ_CLOSE_COL;
     VOL_COL].

(** The mapping handed to [df.rename]. *)
Definition yahoo_columns : list (string * string) :=
  [("Date", DATE_COL); ("Open", OPEN_COL); ("High", HIGH_COL);
   ("Low", LOW_COL); ("Close", CLOSE_COL); ("Adj Close", ADJ_CLOSE_COL);
   ("Volume", VOL_COL)].

(** [df.rename(columns=mapping)] on one label: a label that is not a key
    of the mapping is kept. *)
Definition rename_label (mapping : gmap string string) (c : string)
  : string :=
  default c (mapping !! c).

(** [rename_bar_cols], on the column labels of the frame (the data of the
    frame is not touched by a renaming). *)
Definition rename_bar_cols (columns : list string) : list string :=
  if bool_decide (list_to_set columns = REQUIRED_COLS) then columns
  else rename_label (list_to_map yahoo_columns) <$> columns.

(** Python's [l[start:stop]] for a sequence and two integers: a negative
    bound counts from the end, and bounds are clipped to the sequence. *)
Definition slice_bound (len i : Z) : Z :=
  if (i <? 0)%Z then Z.max (i + len) 0 else Z.min i len.

Definition py_slice {A} (l : list A) (start stop : Z) : list A :=
  let len := Z.of_nat (length l) in
  let a := slice_bound len start in
  let b := slice_bound len stop in
  take (Z.to_nat (b - a)) (drop (Z.to_nat a) l).

(** [roll]: the rows of the frame are its index labels paired with its
    values; [has_na] tells the rows that [dropna] removes.  The result is
    the frame as [dropna] leaves it and the frames yielded, in order. *)
Definition roll {Row} (has_na : Row -> bool) (df : list Row) (window : Z)
  : list Row * list (list Row) :=
  let df := filter (fun row => has_na row = false) df in
  (df,
   (fun i => py_slice df i (window + i)) <$>
     seqZ 0 (Z.of_nat (length df) - window + 1)).

End pandas_utils.

(** * Further properties of the order module *)

Module order_extra.
Import order order_props.

(** The order after a run of ticks. *)
Definition run (self : Order) (ticks : list (Q * Z)) : Order :=
  foldl tick self ticks.

(** The condition under which the stop (resp. the limit) of an order is
    met at a price, by action: the comparisons of the STOP and LIMIT
    branches. *)
Definition stop_met (a : TradeAction) (s p : Q) : bool :=
  match a with BUY => Qle_bool s p | SELL => Qle_bool p s end.

Definition limit_met (a : TradeAction) (l p : Q) : bool :=
  match a with BUY => Qle_bool l p | SELL => Qle_bool p l end.

(** *** Construction *)

(** X1.  The constructor stores the quantity of a SELL order as a number
    that is not positive and the quantity of a BUY order as given; the
    magnitude is kept in both cases. *)
Theorem init_stored_qty
    (a : TradeAction) (ot : OrderType) (st li : option Q) (q f : Z)
    (c : Q) (cr : Z) (sub : OrderSubType) (mdo : option Z) :
  let o := __init__ a ot st li q f c cr sub mdo in
  Z.abs (qty o) = Z.abs q /\
  (a = SELL -> (qty o <= 0)%Z /\ qty o = (- Z.abs q)%Z) /\
  (a = BUY -> qty o = q).
Proof.
  intros o. subst o. simpl. destruct a.
  - split; [reflexivity|]. split; [discriminate|reflexivity].
  - destruct (Z.ltb_spec 0 q); (split; [lia|]);
      (split; [intros _; lia | discriminate]).
Qed.

(** A new order is triggered exactly when it was given neither a stop
    nor a limit price, whatever its order type; it is stored OPEN, and a
    GOOD_TIL_CANCELED order always has a number of days to stay open. *)
Theorem init_triggered
    (a : TradeAction) (ot : OrderType) (st li : option Q) (q f : Z)
    (c : Q) (cr : Z) (sub : OrderSubType) (mdo : option Z) :
  let o := __init__ a ot st li q f c cr sub mdo in
  (triggered o = true <-> st = None /\ li = None) /\
  _status o = OPEN /\
  (sub = GOOD_TIL_CANCELED -> max_days_open o <> None) /\
  (sub = DAY -> max_days_open o = mdo).
Proof.
  intros o. subst o. unfold triggered. simpl.
  split; [|split; [reflexivity|split]].
  - destruct st, li; simpl; split; intros H; try discriminate H;
      try (destruct H; discriminate); auto.
  - intros ->. destruct mdo; discriminate.
  - intros ->. reflexivity.
Qed.

(** *** Status *)

(** X2.  An order is open exactly when some quantity is still open and its
    stored status is OPEN or HELD. *)
Theorem open_iff (self : Order) :
  open self = true <->
  open_amount self <> 0%Z /\ (_status self = OPEN \/ _status self = HELD).
Proof.
  unfold open, status.
  destruct (Z.eqb_spec (open_amount self) 0) as [E|E].
  - simpl. split; [discriminate|]. intros [H _]. contradiction.
  - destruct (_status self) eqn:Es; simpl;
      destruct (filled self =? 0)%Z; simpl; split; intros H;
      try discriminate H; try reflexivity;
      try (split; [exact E|]; auto);
      try (destruct H as [_ [H|H]]; discriminate H).
Qed.

(** X3.  Cancelling or rejecting an order closes it: it is no longer open,
    and the getter reports CANCELLED (resp. REJECTED) unless nothing is
    open, in which case it still reports FILLED.  The reason is recorded,
    and quantities, prices and trigger flags are left alone. *)
Theorem cancel_reject_close (self : Order) (r : string) :
  open (cancel r self) = false /\ open (reject r self) = false /\
  status (cancel r self) =
    (if (open_amount self =? 0)%Z then FILLED else CANCELLED) /\
  status (reject r self) =
    (if (open_amount self =? 0)%Z then FILLED else REJECTED) /\
  reason (cancel r self) = Some r /\ reason (reject r self) = Some r /\
  open_amount (cancel r self) = open_amount self /\
  open_amount (reject r self) = open_amount self /\
  triggered (cancel r self) = triggered self /\
  triggered (reject r self) = triggered self.
Proof.
  unfold open, status, cancel, reject, status_setter, open_amount,
    triggered. simpl.
  destruct (qty self - filled self =? 0)%Z; simpl; repeat split.
Qed.

(** X4.  The transitions overwrite each other: the last of [cancel],
    [reject] and [hold] decides the stored status, so a cancelled or
    rejected order that is held again is open again as long as some
    quantity is open.  A held order reports HELD until a first fill, OPEN
    after it, and FILLED once nothing is open. *)
Theorem hold_reopens (self : Order) (r1 r2 : string) :
  reject r2 (cancel r1 self) = reject r2 self /\
  cancel r2 (reject r1 self) = cancel r2 self /\
  hold r2 (cancel r1 self) = hold r2 self /\
  hold r2 (reject r1 self) = hold r2 self /\
  (open (hold r2 (cancel r1 self)) = true <-> open_amount self <> 0%Z) /\
  status (hold r2 self) =
    (if (open_amount self =? 0)%Z then FILLED
     else if (filled self =? 0)%Z then HELD else OPEN).
Proof.
  split; [reflexivity|]. split; [reflexivity|].
  split; [reflexivity|]. split; [reflexivity|].
  unfold open, status, hold, cancel, status_setter, open_amount. simpl.
  split.
  - destruct (Z.eqb_spec (qty self - filled self) 0) as [E|E]; simpl.
    + split; [discriminate|]. intros H. contradiction.
    + destruct (filled self =? 0)%Z; simpl; split; auto.
  - destruct (qty self - filled self =? 0)%Z; [reflexivity|].
    destruct (filled self =? 0)%Z; reflexivity.
Qed.

(** *** Trigger evaluation *)

(** X5.  [check_order_triggers] writes only the trigger flags, the stop
    price, the order type and the time of the last update; whether it
    returns or raises, the action, the quantities, the commission, the
    limit price, the stored status and the reason are as before, and so
    are the status reported by the getter and [open]. *)
Theorem check_order_triggers_frame (self : Order) (p : Q) (now : Z) :
  let self' := state_of (check_order_triggers p now self) in
  action self' = action self /\ qty self' = qty self /\
  filled self' = filled self /\ commission self' = commission self /\
  limit self' = limit self /\ _status self' = _status self /\
  reason self' = reason self /\ created self' = created self /\
  order_subtype self' = order_subtype self /\
  max_days_open self' = max_days_open self /\
  close_date self' = close_date self /\
  status self' = status self /\ open self' = open self.
Proof.
  intros self'.
  assert (Hf : action self' = action self /\ qty self' = qty self /\
               filled self' = filled self /\
               commission self' = commission self /\
               limit self' = limit self /\ _status self' = _status self /\
               reason self' = reason self /\ created self' = created self /\
               order_subtype self' = order_subtype self /\
               max_days_open self' = max_days_open self /\
               close_date self' = close_date self).
  { subst self'. change (check_order_triggers p now self)
      with (check_order_triggers (fst (p, now)) (snd (p, now)) self).
    fold (tick self (p, now)).
    by_cases_on self; repeat split. }
  destruct Hf as (Ha & Hq & Hfi & Hc & Hl & Hs & Hr & Hcr & Hsub & Hm & Hcd).
  repeat (split; [assumption|]).
  assert (Hst : status self' = status self).
  { unfold status, open_amount. rewrite Hq, Hfi, Hs. reflexivity. }
  split; [exact Hst|]. unfold open. rewrite Hst. reflexivity.
Qed.

Lemma tick_flags_monotone (self : Order) (t : Q * Z) :
  (stop_reached self = true -> stop_reached (tick self t) = true) /\
  (limit_reached self = true -> limit_reached (tick self t) = true).
Proof.
  destruct t as [p now].
  by_cases_on self; split; intros H; try discriminate H; reflexivity.
Qed.

(** X6.  The trigger flags are monotone: once [stop_reached] or
    [limit_reached] is true it stays true along every run of ticks,
    whether the calls return or raise. *)
Theorem flags_monotone (ticks : list (Q * Z)) (self : Order) :
  (stop_reached self = true -> stop_reached (run self ticks) = true) /\
  (limit_reached self = true -> limit_reached (run self ticks) = true).
Proof.
  unfold run. revert self.
  induction ticks as [|t ts IH]; intros self; [split; auto|].
  simpl. destruct (tick_flags_monotone self t) as [Hs Hl].
  destruct (IH (tick self t)) as [IHs IHl]. split; auto.
Qed.

(** X7.  [check_order_triggers] returns [True] exactly for MARKET orders,
    which it leaves untouched at every price, even with a stop or a limit
    that was not reached; for every other order a call that returns
    returns [None]. *)
Theorem returns_true_iff_market (self : Order) (p : Q) (now : Z) :
  (order_type self = MARKET ->
     check_order_triggers p now self = Return (Some true) self) /\
  (forall r self',
     check_order_triggers p now self = Return r self' ->
     (r = Some true <-> order_type self = MARKET) /\
     (order_type self <> MARKET -> r = None)).
Proof.
  split.
  - intros Hm. unfold_py. rewrite Hm. reflexivity.
  - destruct self as [a ot sub mdo q c st li sr lr f s r0 cr lu cd].
    unfold triggered; unfold_py; simpl.
    destruct ot, a, st, li, sr, lr; simpl;
      repeat match goal with
        | |- context [Qle_bool ?x ?y] => destruct (Qle_bool x y); simpl
        end;
      intros r self' E; inversion E; subst;
      (split; [split; intros H; try discriminate H; reflexivity|]);
      intros H; try reflexivity; contradiction.
Qed.

(** X8.  A price that the rule needs and that was never given makes the
    call raise [TypeError] once the order is not triggered: a STOP order
    without a stop price, a LIMIT order without a limit price and a
    STOP_LIMIT order without a stop price are left exactly as they were. *)
Theorem missing_price_raises (self : Order) (p : Q) (now : Z) :
  triggered self = false ->
  (order_type self = STOP /\ stop self = None) \/
  (order_type self = STOP_LIMIT /\ stop self = None) \/
  (order_type self = LIMIT /\ limit self = None) ->
  check_order_triggers p now self = Raise TypeError self.
Proof.
  destruct self as [a ot sub mdo q c st li sr lr f s r0 cr lu cd].
  unfold triggered; unfold_py; simpl. intros Ht H.
  destruct H as [[-> ->]|[[-> ->]|[-> ->]]]; simpl in *;
    repeat match goal with x : option Q |- _ => destruct x end;
    destruct a, sr, lr; simpl in *; try discriminate Ht; reflexivity.
Qed.

Lemma missing_price_raises_witness :
  check_order_triggers (48#1) 3
    (__init__ BUY STOP None (Some (55#1)) 10 0 (0#1) 0 DAY None) =
  Raise TypeError
    (__init__ BUY STOP None (Some (55#1)) 10 0 (0#1) 0 DAY None).
Proof.
  apply (missing_price_raises
           (__init__ BUY STOP None (Some (55#1)) 10 0 (0#1) 0 DAY None)
           (48#1) 3 eq_refl).
  left. split; reflexivity.
Defined.

(** X9.  A STOP_LIMIT order without a limit price whose stop is met: the
    call raises [TypeError] after having recorded the stop, so the order
    is left a STOP_LIMIT order with its stop price and [stop_reached] set,
    which makes it triggered. *)
Theorem stop_limit_without_limit (self : Order) (s p : Q) (now : Z) :
  order_type self = STOP_LIMIT -> stop self = Some s -> limit self = None ->
  stop_reached self = false -> stop_met (action self) s p = true ->
  exists self',
    check_order_triggers p now self = Raise TypeError self' /\
    self' = set_last_updated now (set_stop_reached true self) /\
    order_type self' = STOP_LIMIT /\ stop self' = Some s /\
    triggered self' = true.
Proof.
  destruct self as [a ot sub mdo q c st li sr lr f s0 r0 cr lu cd].
  unfold triggered, stop_met; unfold_py; simpl.
  intros -> -> -> -> Hm.
  destruct a; simpl in *; rewrite Hm; simpl; eexists;
    (split; [reflexivity|]); repeat split.
Qed.

Lemma stop_limit_without_limit_witness :
  exists self',
    check_order_triggers (51#1) 3
      (__init__ BUY STOP_LIMIT (Some (50#1)) None 10 0 (0#1) 0 DAY None) =
      Raise TypeError self' /\
    triggered self' = true.
Proof.
  destruct (stop_limit_without_limit
              (__init__ BUY STOP_LIMIT (Some (50#1)) None 10 0 (0#1) 0 DAY
                 None) (50#1) (51#1) 3 eq_refl eq_refl eq_refl eq_refl
              eq_refl) as (self' & Hr & _ & _ & _ & Ht).
  exists self'. split; [exact Hr | exact Ht].
Defined.

Lemma tick_limit_with_stop (self : Order) (t : Q * Z) :
  order_type self = LIMIT -> stop self <> None -> stop_reached self = false ->
  order_type (tick self t) = LIMIT /\ stop (tick self t) <> None /\
  stop_reached (tick self t) = false.
Proof.
  destruct t as [p now].
  by_cases_on self; intros H1 H2 H3; try discriminate; try contradiction;
    repeat split; auto.
Qed.

Lemma tick_stop_with_limit (self : Order) (t : Q * Z) :
  order_type self = STOP -> limit self <> None ->
  limit_reached self = false ->
  order_type (tick self t) = STOP /\ limit (tick self t) <> None /\
  limit_reached (tick self t) = false.
Proof.
  destruct t as [p now].
  by_cases_on self; intros H1 H2 H3; try discriminate; try contradiction;
    repeat split; auto.
Qed.

(** X10.  An order whose prices do not fit its type never triggers: a
    LIMIT order that was given a stop price, or a STOP order that was
    given a limit price, stays untriggered along every run of ticks,
    whatever the prices, since its rule never sets the other flag. *)
Theorem mismatched_order_never_triggers
    (ticks : list (Q * Z)) (self : Order) :
  (order_type self = LIMIT /\ stop self <> None /\
   stop_reached self = false) \/
  (order_type self = STOP /\ limit self <> None /\
   limit_reached self = false) ->
  triggered (run self ticks) = false.
Proof.
  unfold run. revert self.
  induction ticks as [|t ts IH]; intros self H.
  - simpl. unfold triggered.
    destruct H as [(_ & Hs & Hr)|(_ & Hl & Hr)].
    + rewrite Hr. destruct (stop self); [reflexivity|contradiction].
    + rewrite Hr. destruct (limit self); [|contradiction].
      simpl. destruct (is_not_None (stop self) && negb (stop_reached self));
        reflexivity.
  - simpl. apply IH. destruct H as [(H1 & H2 & H3)|(H1 & H2 & H3)].
    + left. apply tick_limit_with_stop; assumption.
    + right. apply tick_stop_with_limit; assumption.
Qed.

Lemma mismatched_order_never_triggers_witness :
  triggered
    (run (__init__ BUY LIMIT (Some (50#1)) (Some (55#1)) 10 0 (0#1) 0 DAY
            None) [(60#1, 1%Z); (70#1, 2%Z)]) = false.
Proof.
  apply (mismatched_order_never_triggers [(60#1, 1%Z); (70#1, 2%Z)]
           (__init__ BUY LIMIT (Some (50#1)) (Some (55#1)) 10 0 (0#1) 0 DAY
              None)).
  left. split; [reflexivity|]. split; [discriminate|reflexivity].
Defined.

(** X11.  A STOP order with a stop price and no limit, not yet triggered:
    one call returns; the order becomes triggered exactly when the price
    is at or above the stop for a BUY, at or below it for a SELL, and the
    time of the last update is refreshed exactly then. *)
Theorem stop_rule (self : Order) (s p : Q) (now : Z) :
  order_type self = STOP -> stop self = Some s -> limit self = None ->
  stop_reached self = false ->
  exists self',
    check_order_triggers p now self = Return None self' /\
    triggered self' = stop_met (action self) s p /\
    stop_reached self' = stop_met (action self) s p /\
    last_updated self' =
      (if stop_met (action self) s p then now else last_updated self) /\
    order_type self' = STOP /\ stop self' = Some s /\
    (stop_met (action self) s p = false -> self' = self).
Proof.
  destruct self as [a ot sub mdo q c st li sr lr f s0 r0 cr lu cd].
  unfold triggered, stop_met; unfold_py; simpl.
  intros -> -> -> ->.
  destruct a; simpl;
    match goal with
    | |- context [Qle_bool ?x ?y] => destruct (Qle_bool x y); simpl
    end;
    eexists; (split; [reflexivity|]); simpl; repeat split;
    intros H; discriminate H.
Qed.

Lemma stop_rule_witness :
  exists self',
    check_order_triggers (49#1) 3
      (__init__ SELL STOP (Some (50#1)) None 10 0 (0#1) 0 DAY None) =
      Return None self' /\
    triggered self' = true /\ last_updated self' = 3%Z.
Proof.
  destruct (stop_rule
              (__init__ SELL STOP (Some (50#1)) None 10 0 (0#1) 0 DAY None)
              (50#1) (49#1) 3 eq_refl eq_refl eq_refl eq_refl)
    as (self' & Hr & Ht & _ & Hl & _).
  exists self'. split; [exact Hr|]. split; [exact Ht | exact Hl].
Defined.

(** X12.  A LIMIT order with a limit price and no stop, not yet triggered:
    one call returns; the order becomes triggered exactly when the price
    is at or above the limit for a BUY, at or below it for a SELL, and the
    time of the last update is refreshed exactly then. *)
Theorem limit_rule (self : Order) (l p : Q) (now : Z) :
  order_type self = LIMIT -> limit self = Some l -> stop self = None ->
  limit_reached self = false ->
  exists self',
    check_order_triggers p now self = Return None self' /\
    triggered self' = limit_met (action self) l p /\
    limit_reached self' = limit_met (action self) l p /\
    last_updated self' =
      (if limit_met (action self) l p then now else last_updated self) /\
    order_type self' = LIMIT /\ limit self' = Some l /\
    (limit_met (action self) l p = false -> self' = self).
Proof.
  destruct self as [a ot sub mdo q c st li sr lr f s0 r0 cr lu cd].
  unfold triggered, limit_met; unfold_py; simpl.
  intros -> -> -> ->.
  destruct sr, a; simpl;
    match goal with
    | |- context [Qle_bool ?x ?y] => destruct (Qle_bool x y); simpl
    end;
    eexists; (split; [reflexivity|]); simpl; repeat split;
    intros H; discriminate H.
Qed.

Lemma limit_rule_witness :
  exists self',
    check_order_triggers (56#1) 3
      (__init__ BUY LIMIT None (Some (55#1)) 10 0 (0#1) 0 DAY None) =
      Return None self' /\
    triggered self' = true /\ last_updated self' = 3%Z.
Proof.
  destruct (limit_rule
              (__init__ BUY LIMIT None (Some (55#1)) 10 0 (0#1) 0 DAY None)
              (55#1) (56#1) 3 eq_refl eq_refl eq_refl eq_refl)
    as (self' & Hr & Ht & _ & Hl & _).
  exists self'. split; [exact Hr|]. split; [exact Ht | exact Hl].
Defined.

(** X13.  A STOP_LIMIT order with both prices whose stop was not reached:
    one call returns.  When the stop is not met the order is unchanged;
    when it is met the order becomes a LIMIT order without stop price,
    with the time of the last update refreshed, and it is triggered by the
    same call exactly when the price is also at or above the limit (for a
    BUY and for a SELL alike) or the limit was marked reached before. *)
Theorem stop_limit_conversion (self : Order) (s l p : Q) (now : Z) :
  order_type self = STOP_LIMIT -> stop self = Some s -> limit self = Some l ->
  stop_reached self = false ->
  exists self',
    check_order_triggers p now self = Return None self' /\
    (stop_met (action self) s p = false -> self' = self) /\
    (stop_met (action self) s p = true ->
       order_type self' = LIMIT /\ stop self' = None /\
       stop_reached self' = true /\ last_updated self' = now /\
       limit self' = Some l /\
       triggered self' = limit_reached self || Qle_bool l p).
Proof.
  destruct self as [a ot sub mdo q c st li sr lr f s0 r0 cr lu cd].
  unfold triggered, stop_met; unfold_py; simpl.
  intros -> -> -> ->.
  destruct a; simpl;
    match goal with
    | |- context [Qle_bool ?x ?y] => destruct (Qle_bool x y) eqn:Es; simpl
    end;
    try (destruct (Qle_bool l p) eqn:El; simpl);
    eexists; (split; [reflexivity|]); simpl;
    (split; [intros H; try discriminate H; reflexivity|]);
    intros H; try discriminate H; repeat split;
    rewrite ?orb_true_r, ?orb_false_r; try reflexivity;
    destruct lr; reflexivity.
Qed.

Lemma stop_limit_conversion_witness :
  exists self',
    check_order_triggers (40#1) 3
      (__init__ SELL STOP_LIMIT (Some (50#1)) (Some (45#1)) 10 0 (0#1) 0
         DAY None) = Return None self' /\
    order_type self' = LIMIT /\ stop self' = None /\
    triggered self' = false.
Proof.
  destruct (stop_limit_conversion
              (__init__ SELL STOP_LIMIT (Some (50#1)) (Some (45#1)) 10 0
                 (0#1) 0 DAY None) (50#1) (45#1) (40#1) 3
              eq_refl eq_refl eq_refl eq_refl)
    as (self' & Hr & _ & Hc).
  destruct (Hc eq_refl) as (Ho & Hs & _ & _ & _ & Ht).
  exists self'. split; [exact Hr|]. split; [exact Ho|].
  split; [exact Hs | exact Ht].
Defined.

Lemma tick_stop_limit_flags (self : Order) (t : Q * Z) :
  (order_type self = STOP_LIMIT -> limit_reached self = false) ->
  order_type (tick self t) = STOP_LIMIT ->
  limit_reached (tick self t) = false.
Proof.
  destruct t as [p now].
  by_cases_on self; intros H; intros; try discriminate; auto.
Qed.

(** X14.  The orders that the module produces keep the conversion
    invariant: a STOP_LIMIT order never has [limit_reached] set, and it
    has [stop_reached] set only when it has no limit price (the case of X9); so a STOP_LIMIT order with both prices is never triggered. *)
Theorem reachable_stop_limit (self : Order) :
  reachable self -> order_type self = STOP_LIMIT ->
  limit_reached self = false /\
  (stop_reached self = true -> limit self = None) /\
  (stop self <> None -> limit self <> None -> triggered self = false).
Proof.
  intros Hr Hot.
  assert (Hl : limit_reached self = false).
  { revert Hot. induction Hr; try exact IHHr.
    - reflexivity.
    - intros Hot. apply tick_stop_limit_flags; [|exact Hot].
      intros Hot'. apply IHHr, Hot'. }
  pose proof (reachable_stop_limit_inv self Hr Hot) as Hinv.
  split; [exact Hl|]. split; [exact Hinv|].
  intros Hs Hli. unfold triggered.
  destruct (stop self); [|contradiction].
  destruct (stop_reached self) eqn:Esr; [|reflexivity].
  specialize (Hinv eq_refl). contradiction.
Qed.

Lemma reachable_stop_limit_witness :
  triggered
    (tick (__init__ BUY STOP_LIMIT (Some (50#1)) (Some (55#1)) 10 0 (0#1) 0
             DAY None) (48#1, 1%Z)) = false.
Proof.
  apply (reachable_stop_limit
           (tick (__init__ BUY STOP_LIMIT (Some (50#1)) (Some (55#1)) 10 0
                    (0#1) 0 DAY None) (48#1, 1%Z))).
  - apply reach_tick, reach_init.
  - reflexivity.
  - discriminate.
  - discriminate.
Defined.

(** *** Runs of ticks *)

Lemma tick_triggered (self : Order) (t : Q * Z) :
  triggered self = true -> tick self t = self.
Proof.
  intros Ht. unfold tick. rewrite (triggered_no_change _ _ _ Ht).
  reflexivity.
Qed.

Lemma run_triggered (ticks : list (Q * Z)) (self : Order) :
  triggered self = true -> run self ticks = self.
Proof.
  unfold run. induction ticks as [|t ts IH]; intros Ht; [reflexivity|].
  simpl. rewrite (tick_triggered _ _ Ht). apply IH, Ht.
Qed.

Lemma tick_stop_order (self : Order) (s : Q) (t : Q * Z) :
  order_type self = STOP -> stop self = Some s -> limit self = None ->
  stop_reached self = false ->
  order_type (tick self t) = STOP /\ stop (tick self t) = Some s /\
  limit (tick self t) = None /\ action (tick self t) = action self /\
  stop_reached (tick self t) = stop_met (action self) s (fst t).
Proof.
  destruct t as [p now]. unfold stop_met.
  destruct self as [a ot sub mdo q c st li sr lr f s0 r0 cr lu cd].
  unfold tick, triggered; unfold_py; simpl.
  intros -> -> -> ->.
  destruct a; simpl;
    match goal with
    | |- context [Qle_bool ?x ?y] => destruct (Qle_bool x y); simpl
    end; repeat split.
Qed.

Lemma tick_limit_order (self : Order) (l : Q) (t : Q * Z) :
  order_type self = LIMIT -> limit self = Some l -> stop self = None ->
  limit_reached self = false ->
  order_type (tick self t) = LIMIT /\ limit (tick self t) = Some l /\
  stop (tick self t) = None /\ action (tick self t) = action self /\
  limit_reached (tick self t) = limit_met (action self) l (fst t).
Proof.
  destruct t as [p now]. unfold limit_met.
  destruct self as [a ot sub mdo q c st li sr lr f s0 r0 cr lu cd].
  unfold tick, triggered; unfold_py; simpl.
  intros -> -> -> ->.
  destruct sr, a; simpl;
    match goal with
    | |- context [Qle_bool ?x ?y] => destruct (Qle_bool x y); simpl
    end; repeat split.
Qed.

Lemma limit_order_run_aux (ticks : list (Q * Z)) :
  forall (self : Order) (l : Q),
    order_type self = LIMIT -> limit self = Some l -> stop self = None ->
    limit_reached self = false ->
    triggered (run self ticks) =
      existsb (fun t => limit_met (action self) l (fst t)) ticks.
Proof.
  induction ticks as [|t ts IH]; intros self l Hot Hl Hs Hr.
  - simpl. unfold triggered. rewrite Hs, Hl, Hr. reflexivity.
  - destruct (tick_limit_order self l t Hot Hl Hs Hr)
      as (Hot' & Hl' & Hs' & Ha' & Hr').
    change (run self (t :: ts)) with (run (tick self t) ts). simpl.
    destruct (limit_met (action self) l (fst t)) eqn:Em; simpl.
    + rewrite run_triggered; unfold triggered; rewrite Hs', Hl', Hr';
        reflexivity.
    + rewrite (IH _ l Hot' Hl' Hs' Hr'), Ha'. reflexivity.
Qed.

(** X15.  A STOP order with a stop price and no limit (resp. a LIMIT order
    with a limit price and no stop) whose flag is not set is triggered
    after a run of ticks exactly when some tick of the run met the stop
    (resp. the limit): a price at or above it for a BUY, at or below it
    for a SELL. *)
Theorem simple_order_run (self : Order) (x : Q) (ticks : list (Q * Z)) :
  (order_type self = STOP -> stop self = Some x -> limit self = None ->
   stop_reached self = false ->
   triggered (run self ticks) =
     existsb (fun t => stop_met (action self) x (fst t)) ticks) /\
  (order_type self = LIMIT -> limit self = Some x -> stop self = None ->
   limit_reached self = false ->
   triggered (run self ticks) =
     existsb (fun t => limit_met (action self) x (fst t)) ticks).
Proof.
  split; [|apply limit_order_run_aux].
  revert self. induction ticks as [|t ts IH]; intros self Hot Hs Hl Hr.
  - simpl. unfold triggered. rewrite Hs, Hl, Hr. reflexivity.
  - destruct (tick_stop_order self x t Hot Hs Hl Hr)
      as (Hot' & Hs' & Hl' & Ha' & Hr').
    change (run self (t :: ts)) with (run (tick self t) ts). simpl.
    destruct (stop_met (action self) x (fst t)) eqn:Em; simpl.
    + rewrite run_triggered; unfold triggered; rewrite Hs', Hl', Hr';
        reflexivity.
    + rewrite (IH _ Hot' Hs' Hl' Hr'), Ha'. reflexivity.
Qed.

Lemma simple_order_run_witness :
  triggered
    (run (__init__ SELL STOP (Some (50#1)) None 10 0 (0#1) 0 DAY None)
       [(55#1, 1%Z); (49#1, 2%Z); (60#1, 3%Z)]) = true.
Proof.
  destruct (simple_order_run
              (__init__ SELL STOP (Some (50#1)) None 10 0 (0#1) 0 DAY None)
              (50#1) [(55#1, 1%Z); (49#1, 2%Z); (60#1, 3%Z)]) as [Hs _].
  rewrite Hs; reflexivity.
Defined.

(** When a run of ticks triggers a STOP_LIMIT order: at the first tick
    that meets the stop the price must be at or above the limit, or some
    later tick must meet the limit as for a LIMIT order. *)
Fixpoint stop_limit_triggers (a : TradeAction) (s l : Q)
    (ticks : list (Q * Z)) : bool :=
  match ticks with
  | [] => false
  | t :: ts =>
      if stop_met a s (fst t)
      then Qle_bool l (fst t)
           || existsb (fun t' => limit_met a l (fst t')) ts
      else stop_limit_triggers a s l ts
  end.

Lemma tick_stop_limit_order (self : Order) (s l : Q) (t : Q * Z) :
  order_type self = STOP_LIMIT -> stop self = Some s ->
  limit self = Some l -> stop_reached self = false ->
  limit_reached self = false ->
  action (tick self t) = action self /\
  if stop_met (action self) s (fst t)
  then order_type (tick self t) = LIMIT /\ stop (tick self t) = None /\
       limit (tick self t) = Some l /\
       limit_reached (tick self t) = Qle_bool l (fst t)
  else tick self t = self.
Proof.
  destruct t as [p now]. unfold stop_met.
  destruct self as [a ot sub mdo q c st li sr lr f s0 r0 cr lu cd].
  unfold tick, triggered; unfold_py; simpl.
  intros -> -> -> -> ->.
  destruct a; simpl;
    match goal with
    | |- context [Qle_bool ?x ?y] => destruct (Qle_bool x y); simpl
    end;
    try (destruct (Qle_bool l p); simpl); repeat split.
Qed.

(** X16.  A STOP_LIMIT order with both prices and no flag set is triggered
    after a run of ticks exactly when the run has a first tick that meets
    the stop and either that tick's price is at or above the limit (for a
    BUY and for a SELL alike) or a later tick meets the limit as for a
    LIMIT order (at or above it for a BUY, at or below it for a SELL). *)
Theorem stop_limit_order_run (ticks : list (Q * Z)) (self : Order)
    (s l : Q) :
  order_type self = STOP_LIMIT -> stop self = Some s ->
  limit self = Some l -> stop_reached self = false ->
  limit_reached self = false ->
  triggered (run self ticks) = stop_limit_triggers (action self) s l ticks.
Proof.
  revert self. induction ticks as [|t ts IH]; intros self Hot Hs Hl Hr Hlr.
  - simpl. unfold triggered. rewrite Hs, Hr. reflexivity.
  - destruct (tick_stop_limit_order self s l t Hot Hs Hl Hr Hlr)
      as [Ha Hc].
    change (run self (t :: ts)) with (run (tick self t) ts). simpl.
    destruct (stop_met (action self) s (fst t)).
    + destruct Hc as (Hot' & Hs' & Hl' & Hlr').
      destruct (Qle_bool l (fst t)) eqn:El; simpl.
      * rewrite run_triggered; unfold triggered; rewrite Hs', Hl', Hlr';
          reflexivity.
      * rewrite (limit_order_run_aux ts _ l Hot' Hl' Hs' Hlr'), Ha.
        reflexivity.
    + rewrite Hc. apply IH; assumption.
Qed.

Lemma stop_limit_order_run_witness :
  triggered
    (run (__init__ SELL STOP_LIMIT (Some (50#1)) (Some (45#1)) 10 0 (0#1) 0
            DAY None) [(52#1, 1%Z); (48#1, 2%Z); (47#1, 3%Z)]) = true /\
  triggered
    (run (__init__ SELL STOP_LIMIT (Some (50#1)) (Some (45#1)) 10 0 (0#1) 0
            DAY None) [(40#1, 1%Z); (44#1, 2%Z)]) = true /\
  triggered
    (run (__init__ SELL STOP_LIMIT (Some (50#1)) (Some (45#1)) 10 0 (0#1) 0
            DAY None) [(40#1, 1%Z); (46#1, 2%Z)]) = false.
Proof.
  split; [|split].
  - rewrite (stop_limit_order_run [(52#1, 1%Z); (48#1, 2%Z); (47#1, 3%Z)]
               (__init__ SELL STOP_LIMIT (Some (50#1)) (Some (45#1)) 10 0
                  (0#1) 0 DAY None) (50#1) (45#1)
               eq_refl eq_refl eq_refl eq_refl eq_refl).
    reflexivity.
  - rewrite (stop_limit_order_run [(40#1, 1%Z); (44#1, 2%Z)]
               (__init__ SELL STOP_LIMIT (Some (50#1)) (Some (45#1)) 10 0
                  (0#1) 0 DAY None) (50#1) (45#1)
               eq_refl eq_refl eq_refl eq_refl eq_refl).
    reflexivity.
  - rewrite (stop_limit_order_run [(40#1, 1%Z); (46#1, 2%Z)]
               (__init__ SELL STOP_LIMIT (Some (50#1)) (Some (45#1)) 10 0
                  (0#1) 0 DAY None) (50#1) (45#1)
               eq_refl eq_refl eq_refl eq_refl eq_refl).
    reflexivity.
Defined.

End order_extra.

(** * Further properties of the portfolio *)

Module portfolio_extra.
Import portfolio portfolio_props.

Section Facts.
Context `{Collaborators}.

Ltac unfold_m :=
  unfold bind, get, modify, ret, throw, logger, write_snapshot in *.

(** What [update_timeindex] and its loops never write. *)
Definition same_account (s s' : Portfolio) : Prop :=
  bars s' = bars s /\ start_date s' = start_date s /\
  _initial_capital s' = _initial_capital s /\ cash s' = cash s /\
  ticker_list s' = ticker_list s /\
  total_commission s' = total_commission s /\
  all_positions_qty s' = all_positions_qty s /\
  raise_on_warnings s' = raise_on_warnings s /\
  signal_handlers s' = signal_handlers s /\
  dom (owned_assets s') = dom (owned_assets s).

Lemma same_account_refl (s : Portfolio) : same_account s s.
Proof. repeat split. Qed.

Lemma same_account_trans (s1 s2 s3 : Portfolio) :
  same_account s1 s2 -> same_account s2 s3 -> same_account s1 s3.
Proof.
  unfold same_account. intros H1 H2.
  destruct H1 as (?&?&?&?&?&?&?&?&?&?), H2 as (?&?&?&?&?&?&?&?&?&?).
  repeat split; congruence.
Qed.

(** The second loop returns for every list of tickers, [total] included:
    the running total stays a number. *)
Lemma holdings_loop_returns (dt : Z) (l : list string) :
  forall (dh : gmap string pyval) (idx : list (Z * string))
         (s : Portfolio) (x : Q),
    dh !! "total" = Some (PyNum x) ->
    exists dh' idx' s' x',
      holdings_loop dt l dh idx s = Return (dh', idx') s' /\
      dh' !! "total" = Some (PyNum x') /\
      idx' = idx ++ ((fun t => (dt, t)) <$> l) /\
      (forall t, t ∉ l -> t <> "total" -> dh' !! t = dh !! t) /\
      (forall t, t ∉ l -> owned_assets s' !! t = owned_assets s !! t) /\
      same_account s s' /\ blotter s' = blotter s /\
      all_holdings_mv s' = all_holdings_mv s /\
      positions_df s' = positions_df s /\ lib s' = lib s.
Proof.
  induction l as [|ticker rest IH]; intros dh idx s x Hdh.
  - exists dh, idx, s, x. simpl. unfold_m. rewrite app_nil_r.
    split; [reflexivity|]. split; [exact Hdh|].
    split; [reflexivity|]. split; [reflexivity|]. split; [reflexivity|].
    split; [apply same_account_refl|]. repeat split.
  - assert (Hstep : exists s1 dh1 x1,
               holdings_loop dt (ticker :: rest) dh idx s =
                 holdings_loop dt rest dh1 (idx ++ [(dt, ticker)]) s1 /\
               dh1 !! "total" = Some (PyNum x1) /\
               (forall t, t <> ticker -> t <> "total" ->
                  dh1 !! t = dh !! t) /\
               (forall t, t <> ticker ->
                  owned_assets s1 !! t = owned_assets s !! t) /\
               same_account s s1 /\ blotter s1 = blotter s /\
               all_holdings_mv s1 = all_holdings_mv s /\
               positions_df s1 = positions_df s /\ lib s1 = lib s).
    { cbn [holdings_loop]. unfold_m. unfold dict_iadd. unfold_m.
      assert (Hd : forall mv : Q, exists y,
                 <[ticker := PyNum mv]> dh !! "total" = Some (PyNum y)).
      { intros mv. destruct (decide (ticker = "total")) as [->|Hne].
        - exists mv. apply lookup_insert_eq.
        - exists x. rewrite lookup_insert_ne by exact Hne. exact Hdh. }
      destruct (owned_assets s !! ticker) as [a|] eqn:Ea.
      - match goal with
        | |- context [<[ticker := PyNum ?mv]> dh] =>
            destruct (Hd mv) as [y Hy]
        end.
        rewrite Hy. eexists _, _, _. split; [reflexivity|].
        split; [apply lookup_insert_eq|].
        split.
        { intros t Ht1 Ht2. rewrite lookup_insert_ne by congruence.
          apply lookup_insert_ne. congruence. }
        split.
        { intros t Ht1. simpl. apply lookup_insert_ne. congruence. }
        split; [|repeat split].
        repeat split. simpl. rewrite dom_insert_L.
        assert (Hin : ticker ∈ dom (owned_assets s))
          by (apply elem_of_dom; eauto).
        apply set_eq. intros k. rewrite elem_of_union, elem_of_singleton.
        split; [intros [->|Hk]; assumption | intros Hk; right; exact Hk].
      - destruct (Hd 0%Q) as [y Hy].
        rewrite Hy. eexists _, _, _. split; [reflexivity|].
        split; [apply lookup_insert_eq|].
        split.
        { intros t H1 H2. rewrite lookup_insert_ne by congruence.
          apply lookup_insert_ne. congruence. }
        split; [reflexivity|]. repeat split. }
    destruct Hstep as (s1 & dh1 & x1 & Hs & Hd1 & Hf1 & Ho1 & Ha1 & Hb1
                       & Hh1 & Hp1 & Hl1).
    destruct (IH dh1 (idx ++ [(dt, ticker)]) s1 x1 Hd1)
      as (dh' & idx' & s' & x' & Hr & Ht & Hi & Hf & Ho & Ha & Hb & Hh
          & Hp & Hl).
    exists dh', idx', s', x'.
    split; [rewrite Hs; exact Hr|]. split; [exact Ht|].
    split; [rewrite Hi, <- app_assoc; reflexivity|].
    split.
    { intros t Hn Htot. apply not_elem_of_cons in Hn as [Hn1 Hn2].
      rewrite (Hf _ Hn2 Htot). apply Hf1; assumption. }
    split.
    { intros t Hn. apply not_elem_of_cons in Hn as [Hn1 Hn2].
      rewrite (Ho _ Hn2). apply Ho1; assumption. }
    split; [exact (same_account_trans _ _ _ Ha1 Ha)|].
    repeat split; congruence.
Qed.

(** *** Snapshots *)

(** X17.  With a MARKET event and at least one tracked ticker, whatever
    the tickers are called, [update_timeindex] returns; it appends exactly
    one row to the holdings and one table to the positions, indexed by the
    latest timestamp and the tracked tickers in order, and writes two
    snapshots: the cumulative positions, then the table of this tick.
    Earlier rows, tables and snapshots are kept. *)
Theorem update_timeindex_appends
    (self : Portfolio) (event : Event) (first : string)
    (rest : list string) :
  event_type event = EventType_MARKET ->
  ticker_list self = first :: rest ->
  let latest_dt := get_latest_bar_dt (bars self) first in
  let index := (fun t => (latest_dt, t)) <$> ticker_list self in
  exists self' dh,
    update_timeindex event self = Return tt self' /\
    all_holdings_mv self' = all_holdings_mv self ++ [dh] /\
    positions_df self' = positions_df self ++ [(index, dh)] /\
    lib self' =
      lib self ++
        [(POSITION_COLLECTION, positions_df self ++ [(index, dh)],
          latest_dt);
         (TICK_COLLECTION, [(index, dh)], latest_dt)] /\
    last (log self') =
      Some (INFO, "Writing current portfolio state to DB.").
Proof.
  intros Hk Hl latest_dt index.
  unfold update_timeindex. rewrite Hk. simpl. unfold_m. rewrite Hl.
  simpl.
  match goal with
  | |- context [holdings_loop ?dt ?l ?dh ?idx ?s] =>
      destruct (holdings_loop_returns dt l dh idx s (cash self)
                  (lookup_insert_eq _ _ _))
        as (dh' & idx' & s' & x' & Hr & _ & Hi & _ & _ & _ & _ & Hh & Hp
            & Hlib);
      rewrite Hr
  end.
  simpl in Hi, Hh, Hp, Hlib. subst idx'.
  eexists _, dh'. split; [reflexivity|]. simpl.
  rewrite Hh, Hp, Hlib. split; [reflexivity|].
  split; [reflexivity|]. split; [rewrite <- app_assoc; reflexivity|].
  apply last_snoc.
Qed.

(** X18.  [update_timeindex] marks to market without trading: cash,
    commission, the tracked tickers and the set of owned tickers are as
    before, owned assets that are not tracked are untouched, and the
    blotter has been given the latest timestamp and asked to check its
    triggers.  The appended row carries the cash and the commission under
    [cash] and [commission] unless a tracked ticker has that name. *)
Theorem update_timeindex_frame
    (self : Portfolio) (event : Event) (first : string)
    (rest : list string) :
  event_type event = EventType_MARKET ->
  ticker_list self = first :: rest ->
  let latest_dt := get_latest_bar_dt (bars self) first in
  exists self' dh,
    update_timeindex event self = Return tt self' /\
    last (all_holdings_mv self') = Some dh /\
    cash self' = cash self /\
    total_commission self' = total_commission self /\
    ticker_list self' = ticker_list self /\
    dom (owned_assets self') = dom (owned_assets self) /\
    (forall t, t ∉ ticker_list self ->
       owned_assets self' !! t = owned_assets self !! t) /\
    blotter self' =
      fst (blotter_check_order_triggers
             (blotter_set_current_dt latest_dt (blotter self))) /\
    ("cash" ∉ ticker_list self ->
       dh !! "cash" = Some (PyNum (cash self))) /\
    ("commission" ∉ ticker_list self ->
       dh !! "commission" = Some (PyNum (total_commission self))).
Proof.
  intros Hk Hl latest_dt.
  unfold update_timeindex. rewrite Hk. simpl. unfold_m. rewrite Hl.
  simpl.
  match goal with
  | |- context [holdings_loop ?dt ?l ?dh ?idx ?s] =>
      destruct (holdings_loop_returns dt l dh idx s (cash self)
                  (lookup_insert_eq _ _ _))
        as (dh' & idx' & s' & x' & Hr & _ & _ & Hf & Ho & Ha & Hb & _ & _
            & _);
      rewrite Hr
  end.
  destruct Ha as (_ & _ & _ & Hc & Ht & Hco & _ & _ & _ & Hd).
  simpl in *.
  eexists _, dh'. split; [reflexivity|]. simpl. rewrite <- Hl.
  split; [apply last_snoc|]. split; [exact Hc|]. split; [exact Hco|].
  split; [exact Ht|]. split; [exact Hd|]. split; [exact Ho|].
  split; [exact Hb|]. split.
  - intros Hn. rewrite (Hf _ Hn) by discriminate.
    rewrite lookup_insert_ne by discriminate.
    rewrite lookup_insert_ne by discriminate.
    apply lookup_insert_eq.
  - intros Hn. rewrite (Hf _ Hn) by discriminate.
    rewrite lookup_insert_ne by discriminate.
    apply lookup_insert_eq.
Qed.

(** X19.  A portfolio that tracks no ticker cannot take a snapshot: with a
    MARKET event [update_timeindex] raises [StopIteration] before it
    touches the blotter, the holdings or the store. *)
Theorem update_timeindex_no_tickers (self : Portfolio) (event : Event) :
  event_type event = EventType_MARKET -> ticker_list self = [] ->
  update_timeindex event self = Raise StopIteration self.
Proof.
  intros Hk Hl. unfold update_timeindex. rewrite Hk. simpl.
  unfold_m. rewrite Hl. reflexivity.
Qed.

(** *** Fills *)


(** X21.  A sale is never blocked by the liquidity check: for a FILL event
    with a negative volume whose order the blotter knows, [update_fill]
    returns with the trade made and logs no warning, whatever the cash and
    whether or not the portfolio raises on warnings. *)
Theorem update_fill_sale_never_blocked
    (self : Portfolio) (order_id : Z) (price : Q) (dt vol : Z)
    (order : AnyOrder) :
  blotter_getitem (blotter self) order_id = Some order ->
  (vol < 0)%Z ->
  let r := update_fill (FillEvent order_id price dt vol) self in
  raised r = None /\
  log (state_of r) = log self /\
  blotter (state_of r) =
    fst (blotter_make_trade order price dt vol (blotter self)) /\
  cash (state_of r) =
    (cash self
     + trade_cost
         (snd (blotter_make_trade order price dt vol (blotter self))))%Q.
Proof.
  intros Hb Hv r. subst r.
  unfold update_fill, check_liquidity. unfold_m. rewrite Hb.
  destruct (Z.ltb_spec vol 0); [|lia]. simpl.
  unfold _update_from_trade, _update_existing_owned_asset_from_trade,
    _create_new_owned_asset_from_trade. unfold_m. simpl.
  set (trade := snd (blotter_make_trade order price dt vol (blotter self))).
  destruct (owned_assets self !! trade_ticker trade) as [a|] eqn:Ea.
  - rewrite bool_decide_eq_true_2 by eauto. simpl. rewrite Ea.
    destruct (owned_asset_make_trade (trade_qty trade)
                (avg_price_per_share trade) a); simpl; repeat split.
  - rewrite bool_decide_eq_false_2
      by (intros [x Hx]; discriminate Hx).
    simpl. repeat split.
Qed.

(** X22.  The liquidity check is monotone in the quantity: at a price
    that is not negative, a purchase that passes still passes for any
    smaller quantity.  It is strict: a portfolio whose cash is not
    positive passes no purchase at such a price, not even of zero
    shares. *)
Theorem check_liquidity_monotone
    (self : Portfolio) (price : Q) (qty qty' : Z) :
  (0 <= price)%Q ->
  ((qty' <= qty)%Z -> check_liquidity price qty self = true ->
     check_liquidity price qty' self = true) /\
  ((cash self <= 0)%Q -> (0 <= qty)%Z ->
     check_liquidity price qty self = false).
Proof.
  intros Hp. unfold check_liquidity. split.
  - intros Hq. destruct (Z.ltb_spec qty' 0); [reflexivity|].
    destruct (Z.ltb_spec qty 0); [lia|].
    rewrite !Qltb_lt. intros Hc.
    assert (Hle : (inject_Z qty' <= inject_Z qty)%Q)
      by (rewrite <- Zle_Qle; exact Hq).
    assert (Hm : (price * inject_Z qty' <= price * inject_Z qty)%Q).
    { rewrite !(Qmult_comm price). apply Qmult_le_compat_r; assumption. }
    lra.
  - intros Hc Hq. destruct (Z.ltb_spec qty 0); [lia|].
    destruct (Qltb 0 (cash self - price * inject_Z qty)) eqn:E;
      [|reflexivity].
    apply Qltb_lt in E.
    assert (Hle : (inject_Z 0 <= inject_Z qty)%Q)
      by (rewrite <- Zle_Qle; exact Hq).
    assert (Hm : (0 <= price * inject_Z qty)%Q)
      by (apply Qmult_le_0_compat; assumption).
    lra.
Qed.

(** *** Weights *)


Lemma current_weights_spec_aux (self : Portfolio) (include_cash : bool) :
  ~ (weights_denominator include_cash self == 0)%Q ->
  exists weights,
    current_weights include_cash self = Return weights self /\
    (forall t a, owned_assets self !! t = Some a ->
       weights !! t =
         Some (total_position_value a
               / weights_denominator include_cash self)%Q) /\
    (forall t, owned_assets self !! t = None ->
       weights !! t =
         if include_cash && bool_decide (t = "cash")
         then Some (cash self / weights_denominator include_cash self)%Q
         else None).
Proof.
  intros Hd. unfold current_weights, bind, get.
  pose proof (NoDup_fst_map_to_list (owned_assets self)) as Hnd.
  destruct include_cash; simpl in Hd |- *.
  - unfold py_div, ret. rewrite (Qeq_bool_false _ _ Hd).
    destruct (weights_loop_spec (total_value self)
                (map_to_list (owned_assets self)) (Qeq_bool_false _ _ Hd)
                (<["cash" := (cash self / total_value self)%Q]> ∅) self)
      as (w' & Hr & Hout & Hin).
    exists w'. split; [exact Hr|]. split.
    + intros t a Ha. apply (Hin _ _ Hnd).
      apply elem_of_map_to_list, Ha.
    + intros t Hn. rewrite (Hout _ (not_owned_not_item _ _ Hn)).
      destruct (decide (t = "cash")) as [->|Hne].
      * rewrite bool_decide_eq_true_2 by reflexivity.
        apply lookup_insert_eq.
      * rewrite bool_decide_eq_false_2 by exact Hne.
        rewrite lookup_insert_ne by congruence. apply lookup_empty.
  - destruct (weights_loop_spec (total_asset_mv self)
                (map_to_list (owned_assets self))
                (Qeq_bool_false _ _ Hd) ∅ self)
      as (w' & Hr & Hout & Hin).
    exists w'. split; [exact Hr|]. split.
    + intros t a Ha. apply (Hin _ _ Hnd).
      apply elem_of_map_to_list, Ha.
    + intros t Hn. rewrite (Hout _ (not_owned_not_item _ _ Hn)).
      apply lookup_empty.
Qed.


(** The sum, over the owned assets, of the weights found under their
    tickers. *)
Definition owned_weights_sum (self : Portfolio) (weights : gmap string Q)
  : Q :=
  foldr (fun item acc => (default 0 (weights !! fst item) + acc)%Q) 0%Q
    (map_to_list (owned_assets self)).

Lemma total_asset_mv_foldr (l : list (string * OwnedAsset)) (acc : Q) :
  (foldl (fun mv asset => mv + total_position_value asset) acc (snd <$> l)
   == acc + foldr (fun item r => total_position_value (snd item) + r) 0 l)%Q.
Proof.
  revert acc. induction l as [|[k a] l IH]; intros acc; simpl.
  - ring.
  - rewrite IH. simpl. ring.
Qed.

Lemma weights_sum_items (weights : gmap string Q) (d : Q)
    (l : list (string * OwnedAsset)) :
  ~ (d == 0)%Q ->
  (forall item, item ∈ l ->
     weights !! fst item = Some (total_position_value (snd item) / d)%Q) ->
  (foldr (fun item acc => default 0 (weights !! fst item) + acc) 0 l
   == foldr (fun item r => total_position_value (snd item) + r) 0 l / d)%Q.
Proof.
  intros Hd. induction l as [|item l IH]; intros Hw; simpl.
  - field. exact Hd.
  - rewrite (Hw item) by apply list_elem_of_here. simpl.
    rewrite IH by (intros i Hi; apply Hw, list_elem_of_further, Hi).
    field. exact Hd.
Qed.

(** X24.  The weights add up to one: when the total is not zero, the
    weights returned for the owned assets sum to 1 without cash, and
    together with the cash weight they sum to 1 with cash, provided no
    owned ticker is called [cash]. *)
Theorem weights_sum_to_one (self : Portfolio) (include_cash : bool) :
  ~ (weights_denominator include_cash self == 0)%Q ->
  exists weights,
    current_weights include_cash self = Return weights self /\
    (include_cash = false -> (owned_weights_sum self weights == 1)%Q) /\
    (include_cash = true -> owned_assets self !! "cash" = None ->
       (default 0 (weights !! "cash") + owned_weights_sum self weights
        == 1)%Q).
Proof.
  intros Hd.
  destruct (current_weights_spec_aux self include_cash Hd)
    as (w & Hr & Hin & Hout).
  exists w. split; [exact Hr|].
  assert (Hsum : (owned_weights_sum self w ==
                  total_asset_mv self / weights_denominator include_cash self)%Q).
  { unfold owned_weights_sum. rewrite (weights_sum_items w _ _ Hd).
    - unfold total_asset_mv. rewrite total_asset_mv_foldr.
      field. exact Hd.
    - intros [k a] Hi. simpl. apply Hin.
      apply elem_of_map_to_list, Hi. }
  split.
  - intros ->. rewrite Hsum. simpl in *. field. exact Hd.
  - intros -> Hc. rewrite Hsum, (Hout _ Hc). simpl in *.
    unfold total_value in *. field. exact Hd.
Qed.

(** *** The value of the owned assets *)

Definition values_sum (l : list (string * OwnedAsset)) : Q :=
  foldr (fun item r => (total_position_value (snd item) + r)%Q) 0%Q l.

Lemma values_sum_perm (l1 l2 : list (string * OwnedAsset)) :
  l1 ≡ₚ l2 -> (values_sum l1 == values_sum l2)%Q.
Proof.
  induction 1 as [|x l1 l2 _ IH|x y l|l1 l2 l3 _ IH1 _ IH2]; simpl.
  - reflexivity.
  - rewrite IH. reflexivity.
  - ring.
  - rewrite IH1. exact IH2.
Qed.

Lemma total_asset_mv_values (s : Portfolio) :
  (total_asset_mv s == values_sum (map_to_list (owned_assets s)))%Q.
Proof.
  unfold total_asset_mv. rewrite total_asset_mv_foldr.
  unfold values_sum. ring.
Qed.

Lemma values_sum_insert (m : gmap string OwnedAsset) (ticker : string)
    (asset : OwnedAsset) :
  m !! ticker = None ->
  (values_sum (map_to_list (<[ticker := asset]> m))
   == values_sum (map_to_list m) + total_position_value asset)%Q.
Proof.
  intros Hn.
  rewrite (values_sum_perm _ _ (map_to_list_insert _ _ asset Hn)).
  simpl. ring.
Qed.

Lemma values_sum_delete (m : gmap string OwnedAsset) (ticker : string)
    (old : OwnedAsset) :
  m !! ticker = Some old ->
  (values_sum (map_to_list (delete ticker m))
   == values_sum (map_to_list m) - total_position_value old)%Q.
Proof.
  intros Ho.
  rewrite <- (values_sum_perm _ _ (map_to_list_delete _ _ _ Ho)).
  simpl. ring.
Qed.

(** X25.  The value of the owned assets is the sum of their values,
    whatever the order in which the dictionary is walked: a new position
    adds its value, a removed position takes its value away, and a
    replaced position exchanges the old value for the new one. *)
Theorem total_asset_mv_update
    (self : Portfolio) (ticker : string) (asset : OwnedAsset) :
  (owned_assets self !! ticker = None ->
     (total_asset_mv
        (set_owned_assets (<[ticker := asset]> (owned_assets self)) self)
      == total_asset_mv self + total_position_value asset)%Q) /\
  (forall old, owned_assets self !! ticker = Some old ->
     (total_asset_mv
        (set_owned_assets (delete ticker (owned_assets self)) self)
      == total_asset_mv self - total_position_value old)%Q /\
     (total_asset_mv
        (set_owned_assets (<[ticker := asset]> (owned_assets self)) self)
      == total_asset_mv self - total_position_value old
         + total_position_value asset)%Q).
Proof.
  split.
  - intros Hn. rewrite !total_asset_mv_values. simpl.
    apply values_sum_insert, Hn.
  - intros old Ho. rewrite !total_asset_mv_values. simpl. split.
    + apply values_sum_delete, Ho.
    + rewrite <- insert_delete_eq.
      rewrite values_sum_insert by apply lookup_delete_eq.
      rewrite (values_sum_delete _ _ _ Ho). reflexivity.
Qed.



(** *** A new portfolio *)

Lemma dict_of_tickers_lookup (v : pyval) (l : list string) (t : string) :
  dict_of_tickers v l !! t = if bool_decide (t ∈ l) then Some v else None.
Proof.
  unfold dict_of_tickers.
  assert (Hg : forall d : gmap string pyval,
             foldl (fun d ticker => <[ticker := v]> d) d l !! t =
               if bool_decide (t ∈ l) then Some v else d !! t).
  { induction l as [|k l IH]; intros d.
    - cbn [foldl]. case_bool_decide as Hn; [|reflexivity].
      apply elem_of_nil in Hn. contradiction.
    - cbn [foldl]. rewrite IH.
      case_bool_decide as H1; case_bool_decide as H2; try reflexivity.
      + exfalso. apply H2, list_elem_of_further, H1.
      + apply elem_of_cons in H2 as [->|H2]; [|contradiction].
        apply lookup_insert_eq.
      + apply lookup_insert_ne. intros ->. apply H2, list_elem_of_here. }
  rewrite Hg. destruct (bool_decide (t ∈ l)); [reflexivity|].
  apply lookup_empty.
Qed.

(** X27.  A new portfolio holds its initial capital as cash and owns
    nothing, so its total value is the initial capital.  Its first
    holdings row carries the capital under [cash] and [total], a zero
    commission and the start date whatever the tickers are called (the
    reserved keys are written last), and 0 for every other tracked
    ticker.  Every weight without cash is 0 and every market-value lookup
    raises [KeyError]. *)
Theorem init_portfolio
    (data_handler : DataHandler) (start : Z) (b : Blotter)
    (initial_capital : Q) (strict : bool) :
  let p := __init__ data_handler start b initial_capital strict in
  cash p = initial_capital /\ owned_assets p = ∅ /\
  ticker_list p = tickers data_handler /\
  (total_value p == initial_capital)%Q /\
  (exists row,
     all_holdings_mv p = [row] /\
     row !! "total" = Some (PyNum initial_capital) /\
     row !! "cash" = Some (PyNum initial_capital) /\
     row !! "commission" = Some (PyNum 0) /\
     row !! "datetime" = Some (PyDatetime start) /\
     (forall t, t ∈ tickers data_handler ->
        t ∉ ["total"; "commission"; "cash"; "datetime"] ->
        row !! t = Some (PyNum 0))) /\
  (forall ticker, get_asset_weight ticker false p = Return 0%Q p) /\
  (forall ticker, raised (get_owned_asset_mv ticker p) <> None).
Proof.
  intros p. subst p.
  split; [reflexivity|]. split; [reflexivity|]. split; [reflexivity|].
  split.
  { unfold total_value, total_asset_mv. simpl.
    rewrite map_to_list_empty. simpl. ring. }
  split.
  { eexists. split; [reflexivity|].
    split; [apply lookup_insert_eq|].
    split; [rewrite !lookup_insert_ne by discriminate;
            apply lookup_insert_eq|].
    split; [rewrite lookup_insert_ne by discriminate;
            apply lookup_insert_eq|].
    split; [rewrite !lookup_insert_ne by discriminate;
            apply lookup_insert_eq|].
    intros t Ht Hres.
    rewrite !lookup_insert_ne
      by (intros E; apply Hres; rewrite <- E;
          repeat first [apply list_elem_of_here
                       |apply list_elem_of_further]).
    rewrite dict_of_tickers_lookup.
    rewrite bool_decide_eq_true_2 by exact Ht. reflexivity. }
  split.
  { intros ticker. unfold get_asset_weight, current_weights, bind, get.
    simpl. rewrite map_to_list_empty. simpl. unfold ret.
    rewrite lookup_empty. reflexivity. }
  intros ticker. unfold get_owned_asset_mv, bind, get. simpl.
  rewrite lookup_empty. discriminate.
Qed.

End Facts.

Lemma weights_sum_to_one_witness :
  exists weights : gmap string Q,
    current_weights true (invested_portfolio ["AAPL"; "MSFT"]) =
      Return weights (invested_portfolio ["AAPL"; "MSFT"]) /\
    (default 0 (weights !! "cash")
     + owned_weights_sum (invested_portfolio ["AAPL"; "MSFT"]) weights
     == 1)%Q.
Proof.
  destruct (@weights_sum_to_one table_collaborators
              (invested_portfolio ["AAPL"; "MSFT"]) true)
    as (w & Hr & _ & Hs).
  - vm_compute. discriminate.
  - exists w. split; [exact Hr|]. apply Hs; reflexivity.
Defined.


Lemma update_timeindex_appends_witness :
  exists self' dh,
    update_timeindex MarketEvent (invested_portfolio ["AAPL"; "MSFT"]) =
      Return tt self' /\
    all_holdings_mv self' =
      all_holdings_mv (invested_portfolio ["AAPL"; "MSFT"]) ++ [dh] /\
    length (lib self') = 2%nat.
Proof.
  destruct (@update_timeindex_appends table_collaborators
              (invested_portfolio ["AAPL"; "MSFT"]) MarketEvent "AAPL"
              ["MSFT"] eq_refl eq_refl)
    as (self' & dh & Hr & Hh & _ & Hl & _).
  exists self', dh. split; [exact Hr|]. split; [exact Hh|].
  rewrite Hl. reflexivity.
Defined.

Lemma update_timeindex_frame_witness :
  exists self' (dh : gmap string pyval),
    update_timeindex MarketEvent (invested_portfolio ["AAPL"; "MSFT"]) =
      Return tt self' /\
    cash self' = 99000#1 /\
    dh !! "cash" = Some (PyNum (99000#1)).
Proof.
  destruct (@update_timeindex_frame table_collaborators
              (invested_portfolio ["AAPL"; "MSFT"]) MarketEvent "AAPL"
              ["MSFT"] eq_refl eq_refl)
    as (self' & dh & Hr & _ & Hc & _ & _ & _ & _ & _ & Hcash & _).
  exists self', dh. split; [exact Hr|]. split; [exact Hc|].
  apply Hcash. intros Hin.
  apply elem_of_cons in Hin as [Hin|Hin]; [discriminate|].
  apply elem_of_cons in Hin as [Hin|Hin]; [discriminate|].
  inversion Hin.
Defined.

Lemma update_timeindex_no_tickers_witness :
  update_timeindex MarketEvent (new_portfolio [] (100000#1) false) =
    Raise StopIteration (new_portfolio [] (100000#1) false).
Proof.
  apply (@update_timeindex_no_tickers table_collaborators
           (new_portfolio [] (100000#1) false) MarketEvent eq_refl eq_refl).
Defined.


Lemma update_fill_sale_never_blocked_witness :
  raised
    (update_fill (FillEvent 1 (10#1) 5 (-100))
       (new_portfolio ["AAPL"] (0#1) true)) = None.
Proof.
  apply (@update_fill_sale_never_blocked table_collaborators
           (new_portfolio ["AAPL"] (0#1) true) 1 (10#1) 5 (-100) "AAPL"
           eq_refl).
  lia.
Defined.

Lemma check_liquidity_monotone_witness :
  check_liquidity (10#1) 50 (new_portfolio ["AAPL"] (100000#1) false) =
    true /\
  check_liquidity (10#1) 0 (new_portfolio ["AAPL"] (0#1) false) = false.
Proof.
  split.
  - destruct (@check_liquidity_monotone table_collaborators
                (new_portfolio ["AAPL"] (100000#1) false) (10#1) 100 50)
      as [Hm _].
    + discriminate.
    + apply Hm; [lia | reflexivity].
  - destruct (@check_liquidity_monotone table_collaborators
                (new_portfolio ["AAPL"] (0#1) false) (10#1) 0 0)
      as [_ Hz].
    + discriminate.
    + apply Hz; [discriminate | lia].
Defined.

End portfolio_extra.

(** * Properties of the helpers *)

Module utils_extra.
Import utils pandas_utils.


(** X29.  [rename_bar_cols] is idempotent and keeps the number and the
    order of the columns; it turns the seven Yahoo labels into the
    required ones, leaves every label that is not a Yahoo label alone,
    and never returns a Yahoo label. *)
Theorem rename_bar_cols_spec (columns : list string) :
  rename_bar_cols (rename_bar_cols columns) = rename_bar_cols columns /\
  length (rename_bar_cols columns) = length columns /\
  (forall i c, columns !! i = Some c ->
     rename_bar_cols columns !! i =
       Some (rename_label (list_to_map yahoo_columns) c)) /\
  (forall c, c ∈ rename_bar_cols columns -> c ∉ (fst <$> yahoo_columns)) /\
  list_to_set
    (rename_bar_cols
       ["Date"; "Open"; "High"; "Low"; "Close"; "Adj Close"; "Volume"])
    = REQUIRED_COLS.
Proof.
  assert (Hfix : forall c,
             rename_label (list_to_map yahoo_columns)
               (rename_label (list_to_map yahoo_columns) c) =
             rename_label (list_to_map yahoo_columns) c).
  { intros c. unfold rename_label at 2.
    destruct (list_to_map yahoo_columns !! c) as [v|] eqn:E; simpl;
      [|reflexivity].
    apply elem_of_list_to_map_2 in E.
    repeat (apply elem_of_cons in E as [E|E];
            [injection E as -> ->; vm_compute; reflexivity|]).
    inversion E. }
  assert (Hnot : forall c,
             rename_label (list_to_map yahoo_columns) c ∉
               (fst <$> yahoo_columns)).
  { intros c Hin. unfold rename_label in Hin.
    destruct (list_to_map yahoo_columns !! c) as [v|] eqn:E; simpl in Hin.
    - apply elem_of_list_to_map_2 in E.
      repeat (apply elem_of_cons in E as [E|E];
              [injection E as -> ->;
               repeat (apply elem_of_cons in Hin as [Hin|Hin];
                       [discriminate Hin|]); inversion Hin|]).
      inversion E.
    - apply not_elem_of_list_to_map in E. contradiction. }
  assert (Hreq : forall c, c ∈ REQUIRED_COLS ->
             rename_label (list_to_map yahoo_columns) c = c).
  { intros c Hc. unfold REQUIRED_COLS in Hc.
    apply elem_of_list_to_set in Hc.
    repeat (apply elem_of_cons in Hc as [->|Hc]; [reflexivity|]).
    inversion Hc. }
  assert (Hmap : rename_bar_cols columns =
                 rename_label (list_to_map yahoo_columns) <$> columns).
  { unfold rename_bar_cols. case_bool_decide as Hs; [|reflexivity].
    symmetry. rewrite <- (list_fmap_id columns) at 2.
    apply list_fmap_ext. intros i c Hc. apply Hreq. rewrite <- Hs.
    apply elem_of_list_to_set. apply list_elem_of_lookup. eauto. }
  split.
  { rewrite Hmap. unfold rename_bar_cols.
    case_bool_decide as Hs; [reflexivity|].
    rewrite <- list_fmap_compose. apply list_fmap_ext.
    intros i c _. apply Hfix. }
  split; [rewrite Hmap; apply length_fmap|].
  split.
  { intros i c Hc. rewrite Hmap, list_lookup_fmap, Hc. reflexivity. }
  split.
  { intros c. rewrite Hmap. intros Hin.
    apply list_elem_of_fmap in Hin as (c0 & -> & _). apply Hnot. }
  vm_compute. reflexivity.
Qed.

Lemma py_slice_window {A} (l : list A) (i window : Z) :
  (0 <= i)%Z -> (0 < window)%Z ->
  (i + window <= Z.of_nat (length l))%Z ->
  py_slice l i (window + i) =
    take (Z.to_nat window) (drop (Z.to_nat i) l).
Proof.
  intros Hi Hw Hle. unfold py_slice, slice_bound.
  destruct (Z.ltb_spec i 0); [lia|].
  destruct (Z.ltb_spec (window + i) 0); [lia|].
  rewrite !Z.min_l by lia. f_equal. lia.
Qed.

(** X30.  [roll] over a frame without missing values, for a window of
    1 to [n] rows where [n] is the number of rows: it yields
    [n - window + 1] frames, each of exactly [window] rows, the [i]-th
    being the rows [i] to [i + window - 1]; for a window larger than the
    frame it yields nothing. *)
Theorem roll_windows {Row} (has_na : Row -> bool) (df : list Row)
    (window : Z) :
  (forall row, row ∈ df -> has_na row = false) ->
  let n := Z.of_nat (length df) in
  fst (roll has_na df window) = df /\
  ((n < window)%Z -> snd (roll has_na df window) = []) /\
  ((0 < window <= n)%Z ->
     length (snd (roll has_na df window)) = Z.to_nat (n - window + 1) /\
     (forall (i : nat) (w : list Row),
        snd (roll has_na df window) !! i = Some w ->
        length w = Z.to_nat window /\
        (forall j : nat, (Z.of_nat j < window)%Z ->
           w !! j = df !! (i + j)%nat))).
Proof.
  intros Hna n.
  assert (Hf : filter (fun row => has_na row = false) df = df).
  { clear n. induction df as [|r df IH]; [reflexivity|].
    rewrite filter_cons.
    destruct (decide (has_na r = false)) as [_|Hn].
    - f_equal. apply IH. intros row Hr. apply Hna, list_elem_of_further, Hr.
    - exfalso. apply Hn, Hna, list_elem_of_here. }
  unfold roll. rewrite Hf. simpl. fold n.
  split; [reflexivity|]. split.
  - intros Hlt. rewrite seqZ_nil by lia. reflexivity.
  - intros [Hw Hle]. split.
    + rewrite length_fmap, length_seqZ. reflexivity.
    + intros i w Hi. rewrite list_lookup_fmap in Hi.
      destruct (seqZ 0 (n - window + 1) !! i) as [k|] eqn:Ek;
        [|discriminate Hi].
      apply lookup_seqZ in Ek as [-> Hk]. simpl in Hi. injection Hi as <-.
      rewrite py_slice_window by (subst n; lia).
      split.
      * rewrite length_take, length_drop. subst n. lia.
      * intros j Hj. rewrite lookup_take_lt by lia.
        rewrite lookup_drop. f_equal. lia.
Qed.

Lemma roll_windows_witness :
  snd (roll (fun row : Z => false) [1; 2; 3; 4]%Z 2) =
    [[1; 2]; [2; 3]; [3; 4]]%Z /\
  snd (roll (fun row : Z => false) [1; 2; 3; 4]%Z 5) = [].
Proof.
  destruct (roll_windows (fun row : Z => false) [1; 2; 3; 4]%Z 5
              (fun _ _ => eq_refl)) as (_ & Hnone & _).
  split; [reflexivity|]. apply Hnone. simpl. lia.
Defined.

End utils_extra.
